(** * The instance reconciler of the Aiven operator

    A shallow embedding of [controllers/controller.go] (the generic
    reconciliation pass, its finalisation sub-flow, the running check and the
    reflection-driven [UserConfigurationToAPI]) and of the
    [createOrUpdate] and [delete] methods of [ServiceIntegrationHandler],
    followed by the properties the specification states about them.

    Conventions of the embedding:
    - a Go [error] value is an [option error] ([None] is [nil]);
    - a pointer that the pass mutates in place (the reconciled object [o], the
      credential secret [i.s]) lives in the state of the pass, so that every
      callee sees the mutations of the previous ones;
    - every call that leaves the process (handler methods, object-store
      writes, recorded events) is appended to a chronological list of calls;
    - logger calls ([i.log.Info]) have no effect on the pass and are left out. *)

From stdpp Require Import gmap strings list fin_maps.
From Stdlib Require Import ZArith DecimalString.

Set Warnings "-register-all,-clear-no-such-hyp".
Set Default Proof Using "Type".

(** ** Go prelude: strings, errors, multierror *)

Module strings.

(** [strings.HasPrefix(s, prefix)] *)
Definition HasPrefix (s prefix : string) : bool := String.prefix prefix s.

(** [strings.Contains(s, substr)] *)
Fixpoint Contains (s substr : string) : bool :=
  HasPrefix s substr ||
  match s with
  | EmptyString => false
  | String _ rest => Contains rest substr
  end.

(** [strings.ReplaceAll(s, old, new)] for a non-empty [old]: the
    non-overlapping occurrences of [old] are replaced from left to right;
    [skip] counts the characters of a replaced occurrence still to drop. *)
Fixpoint replaceFrom (skip : nat) (s old new : string) : string :=
  match s with
  | EmptyString => EmptyString
  | String c rest =>
      match skip with
      | S k => replaceFrom k rest old new
      | O =>
          if HasPrefix s old
          then new +:+ replaceFrom (String.length old - 1) rest old new
          else String c (replaceFrom 0 rest old new)
      end
  end.

Definition ReplaceAll (s old new : string) : string := replaceFrom 0 s old new.

End strings.

Module strconv.

(** [strconv.FormatInt(i, 10)] *)
Definition FormatInt (i : Z) : string := NilZero.string_of_int (Z.to_int i).

(** [%q] of a string without characters that need escaping. *)
Definition Quote (s : string) : string :=
  String (Ascii.ascii_of_nat 34) (s +:+ String (Ascii.ascii_of_nat 34) EmptyString).

End strconv.

(** Go errors, as far as the controller builds and inspects them. *)
Inductive error : Type :=
| errorString (s : string)
    (** an error known by its text: [errors.New], or an error of a library *)
| wrapError (msg : string) (err : error)
    (** [fmt.Errorf] with a [%w] verb: the formatted text and the wrapped error *)
| multiError (Errors : list error).
    (** [*multierror.Error] *)

Module multierror.

Definition newline : string := String (Ascii.ascii_of_nat 10) EmptyString.
Definition tab : string := String (Ascii.ascii_of_nat 9) EmptyString.

Fixpoint Join (elems : list string) (sep : string) : string :=
  match elems with
  | [] => EmptyString
  | [x] => x
  | x :: rest => x +:+ sep +:+ Join rest sep
  end.

(** [multierror.ListFormatFunc], on the texts of the errors. *)
Definition ListFormatFunc (es : list string) : string :=
  match es with
  | [e] => "1 error occurred:" +:+ newline +:+ tab +:+ "* " +:+ e +:+ newline +:+ newline
  | _ =>
      strconv.FormatInt (Z.of_nat (length es)) +:+ " errors occurred:" +:+ newline +:+ tab
      +:+ Join (List.map (fun e => "* " +:+ e) es) (newline +:+ tab) +:+ newline +:+ newline
  end.

(** [multierror.Append(err, e)] with one appended error, as the controller
    calls it: the result is always a [*multierror.Error], given here by its
    [Errors]; [nil] arguments are skipped and a multi-error is flattened. *)
Definition Append (err : option error) (e : option error) : list error :=
  let base :=
    match err with
    | None => []
    | Some (multiError es) => es
    | Some x => [x]
    end in
  match e with
  | None => base
  | Some (multiError es) => base ++ es
  | Some x => base ++ [x]
  end.

(** [ErrorOrNil] of a [*multierror.Error] *)
Definition ErrorOrNil (Errors : list error) : option error :=
  match Errors with
  | [] => None
  | _ => Some (multiError Errors)
  end.

End multierror.

(** [err.Error()] *)
Fixpoint Error (e : error) : string :=
  match e with
  | errorString s => s
  | wrapError msg _ => msg
  | multiError es => multierror.ListFormatFunc (List.map Error es)
  end.

(** [fmt.Errorf(prefix + "%w", err)] *)
Definition Errorf_w (prefix : string) (err : error) : error :=
  wrapError (prefix +:+ Error err) err.

Module time.
(** [time.Duration] counts nanoseconds. *)
Definition Second : Z := 1000000000.
End time.

(** ** Constants of [controller.go] *)

Definition formatIntBaseDecimal : Z := 10.

Definition requeueTimeout : Z := 10 * time.Second.

Definition eventUnableToGetAuthSecret : string := "UnableToGetAuthSecret".
Definition eventUnableToCreateClient : string := "UnableToCreateClient".
Definition eventReconciliationStarted : string := "ReconcilationStarted".
Definition eventTryingToDeleteAtAiven : string := "TryingToDeleteAtAiven".
Definition eventUnableToDeleteAtAiven : string := "UnableToDeleteAtAiven".
Definition eventUnableToDeleteFinalizer : string := "UnableToDeleteFinalizer".
Definition eventSuccessfullyDeletedAtAiven : string := "SuccessfullyDeletedAtAiven".
Definition eventAddedFinalizer : string := "InstanceFinalizerAdded".
Definition eventUnableToAddFinalizer : string := "UnableToAddFinalizer".
Definition eventWaitingforPreconditions : string := "WaitingForPreconditions".
Definition eventUnableToWaitForPreconditions : string := "UnableToWaitForPreconditions".
Definition eventPreconditionsAreMet : string := "PreconditionsAreMet".
Definition eventUnableToCreateOrUpdateAtAiven : string := "UnableToCreateOrUpdateAtAiven".
Definition eventCreateOrUpdatedAtAiven : string := "CreateOrUpdatedAtAiven".
Definition eventCreatedOrUpdatedAtAiven : string := "CreatedOrUpdatedAtAiven".
Definition eventWaitingForTheInstanceToBeRunning : string := "WaitingForInstanceToBeRunning".
Definition eventUnableToWaitForInstanceToBeRunning : string := "UnableToWaitForInstanceToBeRunning".
Definition eventInstanceIsRunning : string := "InstanceIsRunning".

(** ** What the controller takes from outside [controller.go]

    The two finalizer names and the two annotation keys are constants of the
    package declared in another file; types and functions of the libraries
    (the provider client, the object store) are not part of the repository.
    They are parameters of the development. *)
Class Platform : Type := {
  (** name of the finalizer that blocks deletion of the instance *)
  instanceDeletionFinalizer : string;
  (** name of the finalizer that protects the credential secret *)
  secretProtectionFinalizer : string;
  (** key of the annotation that holds the last processed generation *)
  processedGenerationAnnotation : string;
  (** key of the annotation that flags a running instance *)
  instanceIsRunningAnnotation : string;
  (** the kind-specific part of a managed object (its spec and status) *)
  Body : Type;
  (** everything outside the process: the object store and the provider *)
  World : Type;
  (** [*aiven.Client] *)
  AivenClient : Type;
  (** [aiven.NewTokenClient(key, userAgent)] *)
  NewTokenClient : string -> string -> AivenClient + error;
  (** [aiven.IsNotFound(err)] on a non-nil error *)
  IsNotFound : error -> bool;
  (** [apierrors.IsNotFound(err)] of the object store, on a non-nil error *)
  apiIsNotFound : error -> bool;
}.

(** [ctrl.Result] *)
Record Result : Type := { Requeue : bool; RequeueAfter : Z }.

(** [ctrl.Result{}] *)
Definition noResult : Result := {| Requeue := false; RequeueAfter := 0 |}.

(** [types.NamespacedName] *)
Record NamespacedName : Type := { nnNamespace : string; nnName : string }.

(** [v1alpha1.AuthSecretReference] *)
Record AuthSecretReference : Type := { refName : string; refKey : string }.

(** [corev1.Secret], with the metadata the pass reads. *)
Record Secret : Type := {
  secretName : string;
  secretNamespace : string;
  secretFinalizers : list string;
  Data : gmap string string;
}.

(** [&corev1.Secret{}] *)
Definition emptySecret : Secret :=
  {| secretName := ""; secretNamespace := ""; secretFinalizers := []; Data := ∅ |}.

Module controllerutil.

(** [controllerutil.ContainsFinalizer], on the finalizers of the object. *)
Definition ContainsFinalizer (finalizers : list string) (finalizer : string) : bool :=
  existsb (String.eqb finalizer) finalizers.

(** [controllerutil.AddFinalizer]: appended unless already there. *)
Definition AddFinalizer (finalizers : list string) (finalizer : string) : list string :=
  if ContainsFinalizer finalizers finalizer then finalizers
  else finalizers ++ [finalizer].

(** [controllerutil.RemoveFinalizer]: every occurrence is dropped. *)
Definition RemoveFinalizer (finalizers : list string) (finalizer : string) : list string :=
  List.filter (fun e => negb (String.eqb e finalizer)) finalizers.

End controllerutil.


(** ** Objects, calls and the state of a pass *)

Section Objects.
Context `{P : Platform}.

(** [client.Object]: the metadata the pass reads and writes, the credential
    reference of an [aivenManagedObject], and the kind-specific rest. *)
Record Object : Type := {
  Name : string;
  Namespace : string;
  Generation : Z;
  DeletionTimestamp : option Z;
  Finalizers : list string;
  Annotations : gmap string string;
  AuthSecretRef : AuthSecretReference;
  Payload : Body;
}.

(** [o.SetFinalizers(f)] *)
Definition SetFinalizers (o : Object) (f : list string) : Object :=
  {| Name := Name o; Namespace := Namespace o; Generation := Generation o;
     DeletionTimestamp := DeletionTimestamp o; Finalizers := f;
     Annotations := Annotations o; AuthSecretRef := AuthSecretRef o;
     Payload := Payload o |}.

(** Writing through the map that [o.GetAnnotations()] returns. *)
Definition SetAnnotations (o : Object) (a : gmap string string) : Object :=
  {| Name := Name o; Namespace := Namespace o; Generation := Generation o;
     DeletionTimestamp := DeletionTimestamp o; Finalizers := Finalizers o;
     Annotations := a; AuthSecretRef := AuthSecretRef o;
     Payload := Payload o |}.

Definition SetSecretFinalizers (s : Secret) (f : list string) : Secret :=
  {| secretName := secretName s; secretNamespace := secretNamespace s;
     secretFinalizers := f; Data := Data s |}.

Inductive EventType : Type := EventTypeNormal | EventTypeWarning.

(** The calls of a pass that leave the process, with their arguments as
    passed and what they returned; a handler receives the object [o] through
    a pointer, and [o'] is the object as the handler left it. *)
Inductive Call : Type :=
| RecorderEvent (eventtype : EventType) (reason message : string)
| RecorderEventf (eventtype : EventType) (reason messageFmt : string)
| HandlerCreateOrUpdate (o o' : Object) (err : option error)
| HandlerDelete (o o' : Object) (finalised : bool) (err : option error)
| HandlerGet (o o' : Object) (secret : option Secret) (err : option error)
| HandlerCheckPreconditions (o o' : Object) (check : bool) (err : option error)
| K8sUpdateSecret (s : Secret) (err : option error)
| K8sUpdate (o : Object) (err : option error)
| K8sStatusUpdate (o : Object) (err : option error)
| K8sCreateOrUpdateSecret (owner : Object) (want : Secret) (err : option error).

(** The state a pass runs in: the world outside, the calls made so far, and
    the two shared in-memory copies the pass mutates through pointers. *)
Record State : Type := {
  world : World;
  calls : list Call;
  obj : Object;
  sec : Secret;
}.

(** A step of the pass. *)
Definition M (A : Type) : Type := State -> A * State.

Definition ret {A : Type} (a : A) : M A := fun st => (a, st).

Definition bind {A B : Type} (m : M A) (k : A -> M B) : M B :=
  fun st => let (a, st') := m st in k a st'.

Definition getObj : M Object := fun st => (obj st, st).

Definition getSec : M Secret := fun st => (sec st, st).

Definition setObj (o : Object) : M unit :=
  fun st => (tt, {| world := world st; calls := calls st; obj := o; sec := sec st |}).

Definition setSec (s : Secret) : M unit :=
  fun st => (tt, {| world := world st; calls := calls st; obj := obj st; sec := s |}).

(** Appends a call to the record of the pass. *)
Definition emit (c : Call) : M unit :=
  fun st => (tt, {| world := world st; calls := calls st ++ [c]; obj := obj st; sec := sec st |}).

(** A call that may change the world outside. *)
Definition external {A : Type} (f : World -> A * World) : M A :=
  fun st => let (a, w) := f (world st) in
            (a, {| world := w; calls := calls st; obj := obj st; sec := sec st |}).

(** A call that only reads the world outside. *)
Definition observe {A : Type} (f : World -> A) : M A := fun st => (f (world st), st).

(** [rec.Event(o, eventtype, reason, message)] *)
Definition Event (eventtype : EventType) (reason message : string) : M unit :=
  emit (RecorderEvent eventtype reason message).

(** [rec.Eventf(o, eventtype, reason, messageFmt)] without arguments *)
Definition Eventf (eventtype : EventType) (reason messageFmt : string) : M unit :=
  emit (RecorderEventf eventtype reason messageFmt).

End Objects.

Declare Scope pass_scope.
Delimit Scope pass_scope with pass.
Notation "x <- m ;; k" := (bind m (fun x => k))
  (at level 20, m at level 99, k at level 200, only parsing) : pass_scope.
Notation "' pat <- m ;; k" := (bind m (fun x => match x with pat => k end))
  (at level 20, pat pattern, m at level 99, k at level 200, only parsing) : pass_scope.

(** The [Handlers] interface: each method receives the provider client and
    the object (a pointer, so the method may mutate it) and may change the
    world outside. *)
Module Handlers.
Section Interface.
Context `{P : Platform}.

Record t : Type := {
  createOrUpdate : AivenClient -> Object -> World -> Object * option error * World;
  delete : AivenClient -> Object -> World -> Object * (bool * option error) * World;
  get : AivenClient -> Object -> World -> Object * (option Secret * option error) * World;
  checkPreconditions : AivenClient -> Object -> World -> Object * (bool * option error) * World;
}.

End Interface.
End Handlers.

(** [client.Client], the object store, as far as the pass calls it. Reads do
    not change the world; a write returns its error and the world after it,
    and leaves the in-memory copy it was given as it is.
    [CreateOrUpdateSecret owner want] stands for
    [controllerutil.CreateOrUpdate] of [want] with a mutate function that
    sets [owner] as its controller reference. *)
Module client.
Section Interface.
Context `{P : Platform}.

Record Client : Type := {
  GetObject : NamespacedName -> World -> Object + error;
  GetSecret : NamespacedName -> World -> Secret + error;
  Update : Object -> World -> option error * World;
  UpdateSecret : Secret -> World -> option error * World;
  StatusUpdate : Object -> World -> option error * World;
  CreateOrUpdateSecret : Object -> Secret -> World -> option error * World;
}.

(** [client.IgnoreNotFound(err)] *)
Definition IgnoreNotFound (err : option error) : option error :=
  match err with
  | Some e => if apiIsNotFound e then None else Some e
  | None => None
  end.

End Interface.
End client.

(** ** Helpers of the package declared outside [controller.go] *)

Section PackageHelpers.
Context `{P : Platform}.
Open Scope pass_scope.

(** Modelled from the spec: [isMarkedForDeletion] is declared in another file
    of the package; an object is marked for deletion when its
    deletion-requested timestamp is set. *)
Definition isMarkedForDeletion (o : Object) : bool :=
  match DeletionTimestamp o with
  | Some _ => true
  | None => false
  end.

(** Modelled from the spec: [isAlreadyProcessed] is declared in another file
    of the package; the "generation processed" annotation, a string-encoded
    decimal generation number, equals the current generation. A missing key
    reads as the empty string, as in a Go map. *)
Definition isAlreadyProcessed (o : Object) : bool :=
  String.eqb (default "" (Annotations o !! processedGenerationAnnotation))
             (strconv.FormatInt (Generation o)).

(** Modelled from the spec: [isAlreadyRunning] is declared in another file of
    the package; "instance running" is a presence-only flag, any value. *)
Definition isAlreadyRunning (o : Object) : bool :=
  match Annotations o !! instanceIsRunningAnnotation with
  | Some _ => true
  | None => false
  end.

(** Modelled from the spec: [addFinalizer] is declared in another file of the
    package; it mutates the in-memory finalizer set, then persists through
    the update call of the store, whose error it returns. Here on the
    credential secret [i.s]. *)
Definition addFinalizerToSecret (k8s : client.Client) (finalizer : string) : M (option error) :=
  s <- getSec ;;
  let s' := SetSecretFinalizers s (controllerutil.AddFinalizer (secretFinalizers s) finalizer) in
  _ <- setSec s' ;;
  err <- external (client.UpdateSecret k8s s') ;;
  _ <- emit (K8sUpdateSecret s' err) ;;
  ret err.

(** Modelled from the spec: [addFinalizer], as above, on the object [o]. *)
Definition addFinalizer (k8s : client.Client) (finalizer : string) : M (option error) :=
  o <- getObj ;;
  let o' := SetFinalizers o (controllerutil.AddFinalizer (Finalizers o) finalizer) in
  _ <- setObj o' ;;
  err <- external (client.Update k8s o') ;;
  _ <- emit (K8sUpdate o' err) ;;
  ret err.

(** Modelled from the spec: [removeFinalizer] is declared in another file of
    the package; it mutates the in-memory finalizer set, then persists
    through the update call of the store, whose error it returns. *)
Definition removeFinalizer (k8s : client.Client) (finalizer : string) : M (option error) :=
  o <- getObj ;;
  let o' := SetFinalizers o (controllerutil.RemoveFinalizer (Finalizers o) finalizer) in
  _ <- setObj o' ;;
  err <- external (client.Update k8s o') ;;
  _ <- emit (K8sUpdate o' err) ;;
  ret err.

End PackageHelpers.

(** ** [instanceReconcilerHelper] *)

Module instanceReconcilerHelper.
Section Methods.
Context `{P : Platform}.
Open Scope pass_scope.

(** The helper closes over the instance-specific fields; the secret [s] it
    points to is the [sec] of the state, the logger is left out and the
    recorder is the record of calls. *)
Record t : Type := {
  k8s : client.Client;
  avn : AivenClient;
  h : Handlers.t;
}.

(** [i.h.checkPreconditions(i.avn, o)] *)
Definition callCheckPreconditions (i : t) : M (bool * option error) :=
  o <- getObj ;;
  '(o', r) <- external (Handlers.checkPreconditions (h i) (avn i) o) ;;
  _ <- setObj o' ;;
  _ <- emit (HandlerCheckPreconditions o o' r.1 r.2) ;;
  ret r.

(** [i.h.createOrUpdate(i.avn, o)] *)
Definition callCreateOrUpdate (i : t) : M (option error) :=
  o <- getObj ;;
  '(o', r) <- external (Handlers.createOrUpdate (h i) (avn i) o) ;;
  _ <- setObj o' ;;
  _ <- emit (HandlerCreateOrUpdate o o' r) ;;
  ret r.

(** [i.h.delete(i.avn, o)] *)
Definition callDelete (i : t) : M (bool * option error) :=
  o <- getObj ;;
  '(o', r) <- external (Handlers.delete (h i) (avn i) o) ;;
  _ <- setObj o' ;;
  _ <- emit (HandlerDelete o o' r.1 r.2) ;;
  ret r.

(** [i.h.get(i.avn, o)] *)
Definition callGet (i : t) : M (option Secret * option error) :=
  o <- getObj ;;
  '(o', r) <- external (Handlers.get (h i) (avn i) o) ;;
  _ <- setObj o' ;;
  _ <- emit (HandlerGet o o' r.1 r.2) ;;
  ret r.

(** [i.k8s.Status().Update(ctx, o)] *)
Definition statusUpdate (i : t) : M (option error) :=
  o <- getObj ;;
  err <- external (client.StatusUpdate (k8s i) o) ;;
  _ <- emit (K8sStatusUpdate o err) ;;
  ret err.

(** [i.k8s.Update(ctx, o)] *)
Definition update (i : t) : M (option error) :=
  o <- getObj ;;
  err <- external (client.Update (k8s i) o) ;;
  _ <- emit (K8sUpdate o err) ;;
  ret err.

Definition checkPreconditions (i : t) : M (bool * Result * option error) :=
  _ <- Event EventTypeNormal eventWaitingforPreconditions
         "waiting for preconditions of the instance" ;;
  '(check, err) <- callCheckPreconditions i ;;
  match err with
  | Some e =>
      _ <- Event EventTypeWarning eventUnableToWaitForPreconditions (Error e) ;;
      ret (true, noResult, Some (Errorf_w "unable to wait for preconditions: " e))
  | None =>
      if negb check then
        ret (true, {| Requeue := true; RequeueAfter := requeueTimeout |}, None)
      else
        _ <- Event EventTypeNormal eventPreconditionsAreMet
               "preconditions are met, proceeding to create or update" ;;
        ret (false, noResult, None)
  end.

(** [canBeDeleted] checks if an instance can be deleted despite error. *)
Definition canBeDeleted (o : Object) (err : option error) : bool :=
  match err with
  | None => true
  | Some e =>
      negb (isAlreadyProcessed o) && negb (isAlreadyRunning o) &&
      strings.Contains (Error e) "Invalid token"
  end.

(** [finalize], from the check of [finalised] (line 248) to its end: the
    part reached when the delete error is [nil] or [canBeDeleted] accepts it. *)
Definition finalizeAfterDelete (i : t) (finalised : bool) : M (Result * option error) :=
  if negb finalised then
    ret ({| Requeue := true; RequeueAfter := requeueTimeout |}, None)
  else
    _ <- Event EventTypeNormal eventSuccessfullyDeletedAtAiven "instance is gone at aiven now" ;;
    err <- removeFinalizer (k8s i) instanceDeletionFinalizer ;;
    match err with
    | Some e =>
        _ <- Event EventTypeWarning eventUnableToDeleteFinalizer (Error e) ;;
        ret (noResult, Some (Errorf_w "unable to remove finalizer: " e))
    | None => ret (noResult, None)
    end.

(** [finalize] runs the finalization logic. *)
Definition finalize (i : t) : M (Result * option error) :=
  _ <- Event EventTypeNormal eventTryingToDeleteAtAiven "trying to delete instance at aiven" ;;
  '(finalised, err) <- callDelete i ;;
  o <- getObj ;;
  match err with
  | Some e =>
      if negb (canBeDeleted o err) then
        _ <- Event EventTypeWarning eventUnableToDeleteAtAiven (Error e) ;;
        ret (noResult, Some (Errorf_w "unable to delete instance at aiven: " e))
      else finalizeAfterDelete i finalised
  | None => finalizeAfterDelete i finalised
  end.

Definition createOrUpdateInstance (i : t) : M (option error) :=
  o <- getObj ;;
  let a := Annotations o in
  let a := delete processedGenerationAnnotation a in
  let a := delete instanceIsRunningAnnotation a in
  _ <- setObj (SetAnnotations o a) ;;
  err <- callCreateOrUpdate i ;;
  match err with
  | Some e => ret (Some (Errorf_w "unable to create or update aiven instance: " e))
  | None => ret None
  end.

Definition createOrUpdateSecret (i : t) (want : Secret) : M (option error) :=
  owner <- getObj ;;
  err <- external (client.CreateOrUpdateSecret (k8s i) owner want) ;;
  _ <- emit (K8sCreateOrUpdateSecret owner want err) ;;
  ret err.

(** The body of [updateInstanceStateAndSecretUntilRunning] up to its [return]
    statement: the values the statement returns, and the local variable [err]
    as the deferred function finds it. *)
Definition checkInstance (i : t) : M ((bool * option error) * option error) :=
  '(serviceSecret, err) <- callGet i ;;
  match err with
  | Some e => ret ((false, Some e), Some e)
  | None =>
      match serviceSecret with
      | Some want =>
          err <- createOrUpdateSecret i want ;;
          match err with
          | Some e =>
              ret ((false, Some (Errorf_w "unable to create or update aiven secret: " e)), Some e)
          | None => o <- getObj ;; ret ((isAlreadyRunning o, None), None)
          end
      | None => o <- getObj ;; ret ((isAlreadyRunning o, None), None)
      end
  end.

(** The deferred function of [updateInstanceStateAndSecretUntilRunning]: both
    updates are attempted and their errors appended to the local variable
    [err], whose final value is the result here. *)
Definition persistDeferred (i : t) (err : option error) : M (option error) :=
  e1 <- statusUpdate i ;;
  let err := Some (multiError (multierror.Append err e1)) in
  e2 <- update i ;;
  let err := multierror.Append err e2 in
  ret (multierror.ErrorOrNil err).

(** The results of the function are unnamed: the [return] statement fixes
    them before the deferred function runs, and what the deferred function
    assigns to the local [err] does not reach the caller. *)
Definition updateInstanceStateAndSecretUntilRunning (i : t) : M (bool * option error) :=
  '(results, err) <- checkInstance i ;;
  _ <- persistDeferred i err ;;
  ret results.

(** [reconcileInstance] from the wait for the instance (line 188) on. *)
Definition waitUntilRunning (i : t) : M (Result * option error) :=
  _ <- Event EventTypeNormal eventWaitingForTheInstanceToBeRunning
         "waiting for the instance to be running" ;;
  '(isRunning, err) <- updateInstanceStateAndSecretUntilRunning i ;;
  match err with
  | Some e =>
      if IsNotFound e then
        ret ({| Requeue := true; RequeueAfter := requeueTimeout |}, None)
      else
        _ <- Event EventTypeWarning eventUnableToWaitForInstanceToBeRunning (Error e) ;;
        ret (noResult, Some (Errorf_w "unable to wait until instance is running: " e))
  | None =>
      if negb isRunning then
        ret ({| Requeue := true; RequeueAfter := requeueTimeout |}, None)
      else
        _ <- Event EventTypeNormal eventInstanceIsRunning "instance is in a RUNNING state" ;;
        ret (noResult, None)
  end.

(** [reconcileInstance] from the check of the preconditions (line 172) on. *)
Definition createOrUpdateAndWait (i : t) : M (Result * option error) :=
  '(requeue, result, err) <- checkPreconditions i ;;
  if requeue then ret (result, err)
  else
    o <- getObj ;;
    if negb (isAlreadyProcessed o) then
      _ <- Event EventTypeNormal eventCreateOrUpdatedAtAiven "about to create instance at aiven" ;;
      err <- createOrUpdateInstance i ;;
      match err with
      | Some e =>
          _ <- Event EventTypeWarning eventUnableToCreateOrUpdateAtAiven (Error e) ;;
          ret (noResult, Some (Errorf_w "unable to create or update instance at aiven: " e))
      | None =>
          _ <- Event EventTypeNormal eventCreatedOrUpdatedAtAiven
                 "instance was created at aiven but may not be running yet" ;;
          waitUntilRunning i
      end
    else waitUntilRunning i.

(** [reconcileInstance] from the finalizer of the instance (line 163) on. *)
Definition addInstanceFinalizerAndContinue (i : t) : M (Result * option error) :=
  o <- getObj ;;
  if negb (controllerutil.ContainsFinalizer (Finalizers o) instanceDeletionFinalizer) then
    err <- addFinalizer (k8s i) instanceDeletionFinalizer ;;
    match err with
    | Some e =>
        _ <- Eventf EventTypeWarning eventUnableToAddFinalizer (Error e) ;;
        ret (noResult, Some (Errorf_w "unable to add finalizer to instance: " e))
    | None =>
        _ <- Event EventTypeNormal eventAddedFinalizer "instance finalizer added" ;;
        createOrUpdateAndWait i
    end
  else createOrUpdateAndWait i.

(** [reconcileInstance] for an object that is not marked for deletion (line
    155 on). *)
Definition addFinalizersAndContinue (i : t) : M (Result * option error) :=
  s <- getSec ;;
  if negb (controllerutil.ContainsFinalizer (secretFinalizers s) secretProtectionFinalizer) then
    err <- addFinalizerToSecret (k8s i) secretProtectionFinalizer ;;
    match err with
    | Some e => ret (noResult, Some (Errorf_w "unable to add finalizer to secret: " e))
    | None => addInstanceFinalizerAndContinue i
    end
  else addInstanceFinalizerAndContinue i.

Definition reconcileInstance (i : t) : M (Result * option error) :=
  _ <- Event EventTypeNormal eventReconciliationStarted "starting reconciliation" ;;
  o <- getObj ;;
  if isMarkedForDeletion o then
    if controllerutil.ContainsFinalizer (Finalizers o) instanceDeletionFinalizer then
      finalize i
    else ret (noResult, None)
  else addFinalizersAndContinue i.

End Methods.
End instanceReconcilerHelper.

(** ** [Controller] *)

Module Controller.
Section Methods.
Context `{P : Platform}.
Open Scope pass_scope.

(** [ctrl.Request] *)
Record Request : Type := { reqNamespacedName : NamespacedName }.

(** [Controller]: the embedded client; the logger and the scheme are left
    out and the recorder is the record of calls. *)
Record t : Type := { Client : client.Client }.

(** [c.Get(ctx, key, o)]: on success the object read replaces the in-memory
    [o]. *)
Definition getObject (c : t) (key : NamespacedName) : M (option error) :=
  r <- observe (client.GetObject (Client c) key) ;;
  match r with
  | inl o => _ <- setObj o ;; ret None
  | inr e => ret (Some e)
  end.

(** [c.Get(ctx, key, clientAuthSecret)] *)
Definition getSecret (c : t) (key : NamespacedName) : M (option error) :=
  r <- observe (client.GetSecret (Client c) key) ;;
  match r with
  | inl s => _ <- setSec s ;; ret None
  | inr e => ret (Some e)
  end.

Definition reconcileInstance (c : t) (req : Request) (h : Handlers.t) : M (Result * option error) :=
  err <- getObject c (reqNamespacedName req) ;;
  match err with
  | Some e => ret (noResult, client.IgnoreNotFound (Some e))
  | None =>
      o <- getObj ;;
      err <- getSecret c {| nnName := refName (AuthSecretRef o);
                            nnNamespace := nnNamespace (reqNamespacedName req) |} ;;
      match err with
      | Some e =>
          _ <- Eventf EventTypeWarning eventUnableToGetAuthSecret (Error e) ;;
          ret (noResult,
               Some (Errorf_w ("cannot get secret " +:+ strconv.Quote (refName (AuthSecretRef o))
                               +:+ ": ") e))
      | None =>
          clientAuthSecret <- getSec ;;
          match NewTokenClient (default "" (Data clientAuthSecret !! refKey (AuthSecretRef o)))
                               "k8s-operator/" with
          | inr e =>
              _ <- Event EventTypeWarning eventUnableToCreateClient (Error e) ;;
              ret (noResult, Some (Errorf_w "cannot initialize aiven client: " e))
          | inl avn =>
              instanceReconcilerHelper.reconcileInstance
                {| instanceReconcilerHelper.avn := avn;
                   instanceReconcilerHelper.k8s := Client c;
                   instanceReconcilerHelper.h := h |}
          end
      end
  end.

(** A pass on the empty object [o] the reconciler of a kind hands over: the
    world before it, no call made yet, and [&corev1.Secret{}] for the
    credential secret. *)
Definition start (w : World) (o : Object) : State :=
  {| world := w; calls := []; obj := o; sec := emptySecret |}.

End Methods.
End Controller.

(** ** [UserConfigurationToAPI] *)

(** A Go call that either returns or panics at run time. *)
Inductive outcome (A : Type) : Type :=
| Returns (a : A)
| Panics.
Arguments Returns {A} a.
Arguments Panics {A}.

Module reflect.

(** [reflect.Kind], as far as [UserConfigurationToAPI] and [isNil] tell kinds
    apart; [Number] stands for every numeric kind other than [Int64]. *)
Inductive Kind : Type :=
| Invalid | Bool | Int64 | Number | String | Ptr | Struct | Map | Slice | Array | Chan | Func.

(** Dynamic types that the function does not look into. *)
Inductive OtherType : Type :=
| NamedBool      (** a defined type whose underlying type is [bool] *)
| NamedInt64     (** a defined type whose underlying type is [int64] *)
| NamedString    (** a defined type whose underlying type is [string] *)
| NumberT        (** a numeric type of another kind ([int], [float64], ...) *)
| SliceT         (** a slice type *)
| TypedMapT      (** a map type other than [map[string]interface{}] *)
| ArrayT         (** an array type *)
| ChanT          (** a channel type *)
| FuncT.         (** a function type *)

(** A Go value held in an [interface{}]: [NilInterface] is the nil interface;
    a pointer is nil ([None]) or points to a value; a struct is given by its
    exported fields in declaration order, each with the [json] key of its tag
    and its value; [MapV] is a [map[string]interface{}], nil when [None];
    [OtherV t isnil] is a value of another dynamic type, [isnil] telling
    whether it is the nil value of a type that has one. *)
Inductive value : Type :=
| NilInterface
| BoolV (b : bool)
| Int64V (n : Z)
| StringV (s : string)
| PtrV (target : option value)
| StructV (fields : list (string * value))
| MapV (m : option (gmap string value))
| OtherV (t : OtherType) (isnil : bool).

Definition kindOfOther (t : OtherType) : Kind :=
  match t with
  | NamedBool => Bool
  | NamedInt64 => Int64
  | NamedString => String
  | NumberT => Number
  | SliceT => Slice
  | TypedMapT => Map
  | ArrayT => Array
  | ChanT => Chan
  | FuncT => Func
  end.

(** [reflect.TypeOf(i).Kind()] for a non-nil interface [i]; [Invalid] is the
    kind of the zero [reflect.Value] that [reflect.ValueOf(nil)] returns. *)
Definition kindOf (v : value) : Kind :=
  match v with
  | NilInterface => Invalid
  | BoolV _ => Bool
  | Int64V _ => Int64
  | StringV _ => String
  | PtrV _ => Ptr
  | StructV _ => Struct
  | MapV _ => Map
  | OtherV t _ => kindOfOther t
  end.

(** The kind of [v] after [v := reflect.ValueOf(c)] and, for a pointer,
    [v = reflect.Indirect(v)]: a nil pointer yields the zero [reflect.Value]. *)
Definition kindIndirect (c : value) : Kind :=
  match c with
  | PtrV (Some target) => kindOf target
  | PtrV None => Invalid
  | _ => kindOf c
  end.

(** [reflect.ValueOf(i).IsNil()], which panics on a kind that has no nil. *)
Definition IsNil (v : value) : outcome bool :=
  match v with
  | PtrV target => Returns (match target with None => true | Some _ => false end)
  | MapV m => Returns (match m with None => true | Some _ => false end)
  | OtherV SliceT isnil | OtherV TypedMapT isnil | OtherV ChanT isnil | OtherV FuncT isnil =>
      Returns isnil
  | _ => Panics
  end.

End reflect.

Import reflect.

Definition isNil (i : value) : outcome bool :=
  match i with
  | NilInterface => Returns true
  | _ =>
      match kindOf i with
      | Ptr | Map | Array | Chan | Slice => IsNil i
      | _ => Returns false
      end
  end.

(** The key of a field: [strings.ReplaceAll(tag, ",omitempty", "")] on the
    [json] entry of its tag. *)
Definition fieldName (tag : string) : string := strings.ReplaceAll tag ",omitempty" "".

(** [UserConfigurationToAPI] on a value that is not a struct after
    indirection: the [switch] on its kind. The type assertions of [c] to
    [*int64] and to [*bool] panic unless [c] is a pointer of exactly that type. *)
Definition notStruct (c : value) : outcome value :=
  match kindIndirect c with
  | Int64 =>
      match c with
      | PtrV (Some (Int64V n)) => Returns (Int64V n)
      | _ => Panics
      end
  | Bool =>
      match c with
      | PtrV (Some (BoolV b)) => Returns (BoolV b)
      | _ => Panics
      end
  | _ => Returns c
  end.

(** One iteration of the pruning loop on the value [val] of a key: whether
    the key is deleted. [reflect.TypeOf(val).Kind()] is called on a nil
    [reflect.Type] when [val] is the nil interface, and the assertion
    [val.(map[string]interface{})] fails on a map of another type. *)
Definition pruneEntry (val : value) : outcome bool :=
  match val with
  | NilInterface => Panics
  | _ =>
      match isNil val with
      | Panics => Panics
      | Returns isnil =>
          let deleted :=
            isnil || match val with StringV s => String.eqb s "" | _ => false end in
          match val with
          | MapV m => Returns (deleted || (size (default ∅ m) =? 0)%nat)
          | OtherV TypedMapT _ => Panics
          | _ => Returns deleted
          end
      end
  end.

(** The pruning loop, [for key, val := range result]: every key of the map is
    visited once, and only the visited key is deleted, so the order of the
    visit (unspecified in Go, that of [map_to_list] here) does not matter. *)
Fixpoint pruneLoop (entries : list (string * value)) (result : gmap string value)
  : outcome (gmap string value) :=
  match entries with
  | [] => Returns result
  | (key, val) :: rest =>
      match pruneEntry val with
      | Panics => Panics
      | Returns true => pruneLoop rest (delete key result)
      | Returns false => pruneLoop rest result
      end
  end.

Definition prune (result : gmap string value) : outcome (gmap string value) :=
  pruneLoop (map_to_list result) result.

(** [UserConfigurationToAPI] converts a user configuration structure to a
    map compatible with the Aiven API. The inner loop converts the fields to
    entries of [result]; a later field with the same key overwrites. *)
Fixpoint UserConfigurationToAPI (c : value) : outcome value :=
  let convert :=
    fix convert (fields : list (string * value)) (result : gmap string value)
      : outcome (gmap string value) :=
      match fields with
      | [] => Returns result
      | (tag, field) :: rest =>
          match UserConfigurationToAPI field with
          | Panics => Panics
          | Returns x => convert rest (<[fieldName tag := x]> result)
          end
      end in
  let ofStruct fields :=
    match convert fields ∅ with
    | Panics => Panics
    | Returns result =>
        match prune result with
        | Panics => Panics
        | Returns result => Returns (MapV (Some result))
        end
    end in
  match c with
  | StructV fields => ofStruct fields
  | PtrV (Some (StructV fields)) => ofStruct fields
  | _ => notStruct c
  end.

Definition toOptionalStringPointer (s : string) : option string :=
  if String.eqb s "" then None else Some s.

(** ** [ServiceIntegrationHandler] *)

Module ServiceIntegrationHandler.
Section Methods.
Context `{P : Platform}.

(** [metav1.Condition], without its time stamp and observed generation. *)
Record Condition : Type := {
  condType : string;
  condStatus : string;
  condReason : string;
  condMessage : string;
}.

Record ServiceIntegrationSpec : Type := {
  Project : string;
  IntegrationType : string;
  SourceEndpointID : string;
  SourceServiceName : string;
  DestinationEndpointID : string;
  DestinationServiceName : string;
  DatadogUserConfig : value;
  KafkaConnectUserConfig : value;
  KafkaLogsUserConfig : value;
  MetricsUserConfig : value;
}.

Record ServiceIntegrationStatus : Type := {
  ID : string;
  Conditions : list Condition;
}.

(** [k8soperatorv1alpha1.ServiceIntegration] *)
Record ServiceIntegration : Type := {
  siGeneration : Z;
  siAnnotations : gmap string string;
  Spec : ServiceIntegrationSpec;
  Status : ServiceIntegrationStatus;
}.

(** A [client.Object] as the handler receives it: a service integration, or
    an object of another kind. *)
Inductive Object : Type :=
| ofServiceIntegration (si : ServiceIntegration)
| ofOtherKind.

(** [aiven.ServiceIntegration], a result of the provider *)
Record AivenServiceIntegration : Type := { ServiceIntegrationID : string }.

Record CreateServiceIntegrationRequest : Type := {
  reqDestinationEndpointID : option string;
  reqDestinationService : option string;
  reqIntegrationType : string;
  reqSourceEndpointID : option string;
  reqSourceService : option string;
  reqUserConfig : option (gmap string value);
}.

Record UpdateServiceIntegrationRequest : Type := {
  updUserConfig : option (gmap string value);
}.

(** [h.client.ServiceIntegrations]: the provider calls of the handler;
    [Create] and [Update] return a pointer to the integration and an error. *)
Record t : Type := {
  Create : string -> CreateServiceIntegrationRequest
           -> option AivenServiceIntegration * option error;
  Update : string -> string -> UpdateServiceIntegrationRequest
           -> option AivenServiceIntegration * option error;
  Delete : string -> string -> option error;
}.

Definition convert (i : Object) : option ServiceIntegration * option error :=
  match i with
  | ofServiceIntegration si => (Some si, None)
  | ofOtherKind => (None, Some (errorString "cannot convert object to ServiceIntegration"))
  end.

(** [UserConfigurationToAPI(c).(map[string]interface{})] *)
Definition userConfigMap (c : value) : outcome (option (gmap string value)) :=
  match UserConfigurationToAPI c with
  | Returns (MapV m) => Returns m
  | _ => Panics
  end.

Definition getUserConfig (int : ServiceIntegration) : outcome (option (gmap string value)) :=
  if String.eqb (IntegrationType (Spec int)) "datadog" then
    userConfigMap (DatadogUserConfig (Spec int))
  else if String.eqb (IntegrationType (Spec int)) "kafka_connect" then
    userConfigMap (KafkaConnectUserConfig (Spec int))
  else if String.eqb (IntegrationType (Spec int)) "kafka_logs" then
    userConfigMap (KafkaLogsUserConfig (Spec int))
  else if String.eqb (IntegrationType (Spec int)) "metrics" then
    userConfigMap (MetricsUserConfig (Spec int))
  else Returns None.

(** [meta.SetStatusCondition]: the condition of the same type is updated, or
    the new one appended. *)
Fixpoint SetStatusCondition (conditions : list Condition) (newCondition : Condition)
  : list Condition :=
  match conditions with
  | [] => [newCondition]
  | c :: rest =>
      if String.eqb (condType c) (condType newCondition) then newCondition :: rest
      else c :: SetStatusCondition rest newCondition
  end.

(** Modelled from the spec: [getInitializedCondition] is declared in another
    file of the package; a condition of type "Initialized" with status True,
    a reason code and a human message. *)
Definition getInitializedCondition (reason message : string) : Condition :=
  {| condType := "Initialized"; condStatus := "True";
     condReason := reason; condMessage := message |}.

(** Modelled from the spec: [getRunningCondition] is declared in another file
    of the package; a condition of type "Running" with the given status, a
    reason code and a human message. *)
Definition getRunningCondition (status reason message : string) : Condition :=
  {| condType := "Running"; condStatus := status;
     condReason := reason; condMessage := message |}.

(** The end of [createOrUpdate], from the assignment of [si.Status.ID] (line
    541): [integration] is the pointer the branch before left in the local
    variable, and reading its field panics when it is nil. The annotation key
    that this file calls [processedGeneration] is the "generation processed"
    key of the platform. *)
Definition recordIntegration (si : ServiceIntegration) (integration : option AivenServiceIntegration)
  : outcome (option ServiceIntegration * option error) :=
  match integration with
  | None => Panics
  | Some integration =>
      let conditions :=
        SetStatusCondition (Conditions (Status si))
          (getInitializedCondition "CreatedOrUpdate"
             "Instance was created or update on Aiven side") in
      let conditions :=
        SetStatusCondition conditions
          (getRunningCondition "Unknown" "CreatedOrUpdate"
             "Instance was created or update on Aiven side, status remains unknown") in
      Returns
        (Some {| siGeneration := siGeneration si;
                 siAnnotations :=
                   <[processedGenerationAnnotation := strconv.FormatInt (siGeneration si)]>
                     (siAnnotations si);
                 Spec := Spec si;
                 Status := {| ID := ServiceIntegrationID integration;
                              Conditions := conditions |} |},
         None)
  end.

Definition createOrUpdate (h : t) (i : Object)
  : outcome (option ServiceIntegration * option error) :=
  match convert i with
  | (_, Some err) => Returns (None, Some err)
  | (None, None) => Panics
  | (Some si, None) =>
      (* var integration *aiven.ServiceIntegration *)
      let integration : option AivenServiceIntegration := None in
      if String.eqb (ID (Status si)) "" then
        match getUserConfig si with
        | Panics => Panics
        | Returns userConfig =>
            (* the integration that Create returns is assigned to the blank
               identifier *)
            let '(_, err) :=
              Create h (Project (Spec si))
                {| reqDestinationEndpointID :=
                     toOptionalStringPointer (DestinationEndpointID (Spec si));
                   reqDestinationService :=
                     toOptionalStringPointer (DestinationServiceName (Spec si));
                   reqIntegrationType := IntegrationType (Spec si);
                   reqSourceEndpointID := toOptionalStringPointer (SourceEndpointID (Spec si));
                   reqSourceService := toOptionalStringPointer (SourceServiceName (Spec si));
                   reqUserConfig := userConfig |} in
            match err with
            | Some e =>
                Returns (None, Some (Errorf_w "cannot createOrUpdate service integration: " e))
            | None => recordIntegration si integration
            end
        end
      else
        match getUserConfig si with
        | Panics => Panics
        | Returns userConfig =>
            let '(integration, err) :=
              Update h (Project (Spec si)) (ID (Status si)) {| updUserConfig := userConfig |} in
            match err with
            | Some e =>
                if strings.Contains (Error e) "user config not changed" then Returns (None, None)
                else Returns (None, Some e)
            | None => recordIntegration si integration
            end
        end
  end.

Definition delete (h : t) (i : Object) : outcome (bool * option error) :=
  match convert i with
  | (_, Some err) => Returns (false, Some err)
  | (None, None) => Panics
  | (Some si, None) =>
      match Delete h (Project (Spec si)) (ID (Status si)) with
      | Some e =>
          if negb (IsNotFound e) then
            Returns (false, Some (Errorf_w "aiven client delete service ingtegration error: " e))
          else Returns (true, None)
      | None => Returns (true, None)
      end
  end.

(** [get] reads nothing at the provider: it sets the condition of type
    Running to True and the annotation that this file calls [isRunning],
    the "instance is running" key of the platform, and returns no secret. *)
Definition get (h : t) (i : Object)
  : outcome (option ServiceIntegration * option Secret * option error) :=
  match convert i with
  | (_, Some err) => Returns (None, None, Some err)
  | (None, None) => Panics
  | (Some si, None) =>
      let conditions :=
        SetStatusCondition (Conditions (Status si))
          (getRunningCondition "True" "Get" "Instance is running on Aiven side") in
      Returns
        (Some {| siGeneration := siGeneration si;
                 siAnnotations := <[instanceIsRunningAnnotation := "1"]> (siAnnotations si);
                 Spec := Spec si;
                 Status := {| ID := ID (Status si); Conditions := conditions |} |},
         None, None)
  end.

End Methods.
End ServiceIntegrationHandler.

(** ** Sample instances

    A small platform, handlers and objects on which the statements below are
    evaluated. *)

Definition demoPlatform : Platform := {|
  instanceDeletionFinalizer := "finalizers.aiven.io/delete-remote-resource";
  secretProtectionFinalizer := "finalizers.aiven.io/needed-to-delete-services";
  processedGenerationAnnotation := "controllers.aiven.io/generation-was-processed";
  instanceIsRunningAnnotation := "controllers.aiven.io/instance-is-running";
  Body := unit;
  World := unit;
  AivenClient := string;
  NewTokenClient := fun key _ =>
    if String.eqb key "" then inr (errorString "empty token") else inl key;
  IsNotFound := fun e =>
    match e with errorString s => strings.HasPrefix s "404" | _ => false end;
  apiIsNotFound := fun e =>
    match e with errorString s => strings.Contains s "not found" | _ => false end;
|}.

Section Demo.
#[local] Existing Instance demoPlatform.

Definition demoObject : Object :=
  {| Name := "db"; Namespace := "default"; Generation := 1;
     DeletionTimestamp := None; Finalizers := []; Annotations := ∅;
     AuthSecretRef := {| refName := "aiven-token"; refKey := "token" |};
     Payload := tt |}.

Definition demoSecret : Secret :=
  {| secretName := "aiven-token"; secretNamespace := "default";
     secretFinalizers := []; Data := {[ "token" := "t0k3n" ]} |}.

(** An object store whose reads return [o] and [s] and whose writes return
    the given errors. *)
Definition demoStore (o : Object + error) (s : Secret + error)
    (update updateSecret statusUpdate : option error) : client.Client :=
  {| client.GetObject := fun _ _ => o;
     client.GetSecret := fun _ _ => s;
     client.Update := fun _ w => (update, w);
     client.UpdateSecret := fun _ w => (updateSecret, w);
     client.StatusUpdate := fun _ w => (statusUpdate, w);
     client.CreateOrUpdateSecret := fun _ _ w => (None, w) |}.

(** A handler in the manner of the handlers of the package: [createOrUpdate]
    records the processed generation on success, [get] flags a running
    instance when [running] holds, and a method that fails leaves the object
    as it is. *)
Definition demoHandler (check : bool * option error) (create : option error)
    (deleted : bool * option error) (read : option error) (running : bool) : Handlers.t :=
  {| Handlers.checkPreconditions := fun _ o w => (o, check, w);
     Handlers.createOrUpdate := fun _ o w =>
       match create with
       | Some e => (o, Some e, w)
       | None =>
           (SetAnnotations o (<[processedGenerationAnnotation :=
                                  strconv.FormatInt (Generation o)]> (Annotations o)),
            None, w)
       end;
     Handlers.delete := fun _ o w => (o, deleted, w);
     Handlers.get := fun _ o w =>
       match read with
       | Some e => (o, (None, Some e), w)
       | None =>
           (if running
            then SetAnnotations o (<[instanceIsRunningAnnotation := "true"]> (Annotations o))
            else o,
            (None, None), w)
       end |}.

Definition demoHelper (k8s : client.Client) (h : Handlers.t) : instanceReconcilerHelper.t :=
  {| instanceReconcilerHelper.k8s := k8s;
     instanceReconcilerHelper.avn := "t0k3n";
     instanceReconcilerHelper.h := h |}.

(** An object marked for deletion that was never processed and never
    running: it carries the deletion finalizer and no annotation. *)
Definition demoDeletedObject : Object :=
  {| Name := "db"; Namespace := "default"; Generation := 1;
     DeletionTimestamp := Some 1700000000%Z;
     Finalizers := [instanceDeletionFinalizer]; Annotations := ∅;
     AuthSecretRef := {| refName := "aiven-token"; refKey := "token" |};
     Payload := tt |}.

(** An object whose generation 1 was processed and whose specification was
    changed since: generation 2, "generation processed" still "1", and no
    "instance running" annotation. *)
Definition demoStaleObject : Object :=
  {| Name := "db"; Namespace := "default"; Generation := 2;
     DeletionTimestamp := Some 1700000000%Z;
     Finalizers := [instanceDeletionFinalizer];
     Annotations := {[ processedGenerationAnnotation := "1" ]};
     AuthSecretRef := {| refName := "aiven-token"; refKey := "token" |};
     Payload := tt |}.

(** An object that is processed and has both finalizers in place. *)
Definition demoProcessedObject : Object :=
  {| Name := "db"; Namespace := "default"; Generation := 1;
     DeletionTimestamp := None;
     Finalizers := [instanceDeletionFinalizer];
     Annotations := {[ processedGenerationAnnotation := "1" ]};
     AuthSecretRef := {| refName := "aiven-token"; refKey := "token" |};
     Payload := tt |}.

Definition demoProtectedSecret : Secret :=
  {| secretName := "aiven-token"; secretNamespace := "default";
     secretFinalizers := [secretProtectionFinalizer]; Data := {[ "token" := "t0k3n" ]} |}.

Definition demoState (o : Object) (s : Secret) : State :=
  {| world := tt; calls := []; obj := o; sec := s |}.

(** A service integration that was not created yet at the provider. *)
Definition demoServiceIntegration : ServiceIntegrationHandler.ServiceIntegration :=
  {| ServiceIntegrationHandler.siGeneration := 1;
     ServiceIntegrationHandler.siAnnotations := ∅;
     ServiceIntegrationHandler.Spec :=
       {| ServiceIntegrationHandler.Project := "my-project";
          ServiceIntegrationHandler.IntegrationType := "datadog";
          ServiceIntegrationHandler.SourceEndpointID := "";
          ServiceIntegrationHandler.SourceServiceName := "my-pg";
          ServiceIntegrationHandler.DestinationEndpointID := "endpoint-1";
          ServiceIntegrationHandler.DestinationServiceName := "";
          ServiceIntegrationHandler.DatadogUserConfig := StructV [];
          ServiceIntegrationHandler.KafkaConnectUserConfig := StructV [];
          ServiceIntegrationHandler.KafkaLogsUserConfig := StructV [];
          ServiceIntegrationHandler.MetricsUserConfig := StructV [] |};
     ServiceIntegrationHandler.Status :=
       {| ServiceIntegrationHandler.ID := ""; ServiceIntegrationHandler.Conditions := [] |} |}.

(** A provider whose calls succeed and return the integration. *)
Definition demoProvider : ServiceIntegrationHandler.t :=
  {| ServiceIntegrationHandler.Create := fun _ _ =>
       (Some {| ServiceIntegrationHandler.ServiceIntegrationID := "integration-1" |}, None);
     ServiceIntegrationHandler.Update := fun _ id _ =>
       (Some {| ServiceIntegrationHandler.ServiceIntegrationID := id |}, None);
     ServiceIntegrationHandler.Delete := fun _ _ => None |}.

End Demo.

(** ** Further sample instances *)

Section FurtherSamples.
#[local] Existing Instance demoPlatform.

(** The connection details of a service, as a handler returns them. *)
Definition demoServiceSecret : Secret :=
  {| secretName := "db-connection"; secretNamespace := "default";
     secretFinalizers := []; Data := {[ "host" := "db.example.com" ]} |}.

(** A handler whose read-back flags a running instance and returns its
    connection details. *)
Definition demoSecretHandler : Handlers.t :=
  {| Handlers.checkPreconditions := fun _ o w => (o, (true, None), w);
     Handlers.createOrUpdate := fun _ o w =>
       (SetAnnotations o (<[processedGenerationAnnotation :=
                              strconv.FormatInt (Generation o)]> (Annotations o)),
        None, w);
     Handlers.delete := fun _ o w => (o, (true, None), w);
     Handlers.get := fun _ o w =>
       (SetAnnotations o (<[instanceIsRunningAnnotation := "true"]> (Annotations o)),
        (Some demoServiceSecret, None), w) |}.


(** A provider that refuses every creation. *)
Definition demoRefusingProvider : ServiceIntegrationHandler.t :=
  {| ServiceIntegrationHandler.Create := fun _ _ =>
       (None, Some (errorString "409: integration exists"));
     ServiceIntegrationHandler.Update := fun _ id _ =>
       (Some {| ServiceIntegrationHandler.ServiceIntegrationID := id |}, None);
     ServiceIntegrationHandler.Delete := fun _ _ => None |}.

End FurtherSamples.

(** ** [ensureSecretDataIsNotEmpty] *)

(** [corev1.Secret] as a handler returns it, with the [StringData] that
    [ensureSecretDataIsNotEmpty] works on. *)
Record ServiceSecret : Type := {
  serviceSecretName : string;
  StringData : gmap string string;
}.

(** The loop [for i, v := range s.StringData] of
    [ensureSecretDataIsNotEmpty]: every field is visited once and a field
    whose value has length zero is deleted. *)
Fixpoint dropEmptyLoop (entries : list (string * string)) (data : gmap string string)
  : gmap string string :=
  match entries with
  | [] => data
  | (i, v) :: rest =>
      if (String.length v =? 0)%nat then dropEmptyLoop rest (delete i data)
      else dropEmptyLoop rest data
  end.

(** [ensureSecretDataIsNotEmpty]; the logger only reports the deleted fields
    and is left out. *)
Definition ensureSecretDataIsNotEmpty (s : option ServiceSecret) : option ServiceSecret :=
  match s with
  | None => None
  | Some s =>
      Some {| serviceSecretName := serviceSecretName s;
              StringData := dropEmptyLoop (map_to_list (StringData s)) (StringData s) |}
  end.

(** * Vocabulary of the properties *)

(** The kinds of calls a pass can make. *)
Inductive CallKind : Type :=
| KEvent | KCreateOrUpdate | KDelete | KGet | KCheckPreconditions
| KUpdateSecret | KUpdate | KStatusUpdate | KCreateOrUpdateSecret.

#[global] Instance CallKind_eq_dec : EqDecision CallKind.
Proof. solve_decision. Defined.

Section Vocabulary.
Context `{P : Platform}.
Import instanceReconcilerHelper.

Definition kindOfCall (c : Call) : CallKind :=
  match c with
  | RecorderEvent _ _ _ | RecorderEventf _ _ _ => KEvent
  | HandlerCreateOrUpdate _ _ _ => KCreateOrUpdate
  | HandlerDelete _ _ _ _ => KDelete
  | HandlerGet _ _ _ _ => KGet
  | HandlerCheckPreconditions _ _ _ _ => KCheckPreconditions
  | K8sUpdateSecret _ _ => KUpdateSecret
  | K8sUpdate _ _ => KUpdate
  | K8sStatusUpdate _ _ => KStatusUpdate
  | K8sCreateOrUpdateSecret _ _ _ => KCreateOrUpdateSecret
  end.

(** All calls of [l] are of one of the kinds [ks]. *)
Definition only (ks : list CallKind) (l : list Call) : Prop :=
  Forall (λ c, kindOfCall c ∈ ks) l.




End Vocabulary.

Section RequeueVocabulary.
Context `{P : Platform}.

(** The requeue directive with the fixed interval, and no error. *)
Definition requeueAfterTimeout : Result * option error :=
  ({| Requeue := true; RequeueAfter := requeueTimeout |}, None).



End RequeueVocabulary.

Section CreateOrUpdateVocabulary.
Context `{P : Platform}.



End CreateOrUpdateVocabulary.

Section FinalizerVocabulary.
Context `{P : Platform}.



(** A recorded event of type Warning. *)
Definition isWarning (c : Call) : bool :=
  match c with
  | RecorderEvent EventTypeWarning _ _ | RecorderEventf EventTypeWarning _ _ => true
  | _ => false
  end.

End FinalizerVocabulary.

(** ** Vocabulary of the flattening *)

(** The inner loop of [UserConfigurationToAPI] as a function of its own. *)
Fixpoint convertFields (fields : list (string * value)) (result : gmap string value)
  : outcome (gmap string value) :=
  match fields with
  | [] => Returns result
  | (tag, field) :: rest =>
      match UserConfigurationToAPI field with
      | Panics => Panics
      | Returns x => convertFields rest (<[fieldName tag := x]> result)
      end
  end.








(** * Vocabulary of the further properties *)

Section PassVocabulary.
Context `{P : Platform}.

(** How many calls of [l] are of the kind [k]. *)
Definition countKind (k : CallKind) (l : list Call) : nat :=
  length (filter (λ c, kindOfCall c = k) l).

(** The four methods of the [Handlers] interface. *)
Definition handlerKinds : list CallKind :=
  [KCheckPreconditions; KCreateOrUpdate; KGet; KDelete].

(** The failed update of the secret that [addFinalizer] attempted. *)
Definition isFailedSecretUpdate (c : Call) : bool :=
  match c with
  | K8sUpdateSecret _ (Some _) => true
  | _ => false
  end.

End PassVocabulary.

Section PassFacts.
Context `{P : Platform}.

(** The three shapes of the result of a pass: done, requeue after the fixed
    interval, or an error without a requeue directive. *)
Definition resultShape (r : Result * option error) : Prop :=
  r = (noResult, None) ∨ r = requeueAfterTimeout ∨ ∃ e, r = (noResult, Some e).

(** The last of the calls [new] satisfies [Q]. *)
Definition endsWith (Q : Call → bool) (new : list Call) : Prop :=
  ∃ pre c, new = pre ++ [c] ∧ Q c = true.

(** Every read-back among the calls [new] is followed by the two updates of
    the object as the read-back left it: its status, then the whole object,
    with at most the write of the returned secret in between. *)
Definition persistedAfterGet (new : list Call) : Prop :=
  ∀ o o' s err, HandlerGet o o' s err ∈ new →
    ∃ pre mid post e1 e2,
      new = pre ++ HandlerGet o o' s err :: mid ++
              K8sStatusUpdate o' e1 :: K8sUpdate o' e2 :: post ∧
      only [KCreateOrUpdateSecret] mid.

(** A secret is written exactly when a read-back returned it without an
    error, and it is written with the object of the read-back as owner. *)
Definition secretFollowsGet (new : list Call) : Prop :=
  ∀ owner want,
    (∃ e, K8sCreateOrUpdateSecret owner want e ∈ new) ↔
    (∃ o, HandlerGet o owner (Some want) None ∈ new).

(** A pass that is done left the object flagged as running by a read-back
    that succeeded. *)
Definition runningConfirmed (new : list Call) (r : Result * option error) (st' : State)
  : Prop :=
  r = (noResult, None) →
  isAlreadyRunning (obj st') = true ∧ ∃ o s, HandlerGet o (obj st') s None ∈ new.

(** The calls [new] split into a first part without any call to the provider
    or write of status or secret, and a rest that is only there when the
    first part holds a precondition check that answered true without error. *)
Definition gated (new : list Call) : Prop :=
  ∃ l1 l2, new = l1 ++ l2 ∧
    only [KEvent; KDelete; KCheckPreconditions; KUpdateSecret; KUpdate] l1 ∧
    (l2 = [] ∨ ∃ o o', HandlerCheckPreconditions o o' true None ∈ l1).

(** An error is announced by a warning, or is the failure to persist the
    finalizer of the secret. *)
Definition announces (c : Call) : bool := isWarning c || isFailedSecretUpdate c.

(** The facts about the running check. *)
Definition runningCheckFacts (new : list Call) (r : Result * option error) (st' : State)
  : Prop :=
  only [KEvent; KGet; KCreateOrUpdateSecret; KStatusUpdate; KUpdate] new ∧
  countKind KGet new = 1 ∧
  resultShape r ∧
  (∀ e, r.2 = Some e → endsWith isWarning new) ∧
  persistedAfterGet new ∧
  secretFollowsGet new ∧
  runningConfirmed new r st'.

(** The facts about a pass. *)
Definition passFacts (new : list Call) (r : Result * option error) : Prop :=
  (∀ k, k ∈ handlerKinds → countKind k new ≤ 1) ∧
  resultShape r ∧
  (∀ e, r.2 = Some e → endsWith announces new) ∧
  persistedAfterGet new ∧
  secretFollowsGet new ∧
  gated new.

End PassFacts.

(** ** Further vocabulary of the flattening *)

Section FlatteningVocabulary.
Import reflect.

(** The values that the pruning loop deletes from the result without a
    panic: the nil pointer, the empty string, the nil and the empty mapping,
    and the nil slice. *)
Definition blanks : list value :=
  [PtrV None; StringV ""; MapV None; MapV (Some ∅); OtherV SliceT true].

(** A structure holds, at some depth, a field of kind bool or int64 that is
    not behind a pointer. *)
Inductive holdsPlainScalar : value → Prop :=
| plainField fields tag v :
    (tag, v) ∈ fields → kindOf v = Bool ∨ kindOf v = Int64 →
    holdsPlainScalar (StructV fields)
| plainBelow fields tag v :
    (tag, v) ∈ fields → holdsPlainScalar v → holdsPlainScalar (StructV fields)
| plainBehindPointer fields :
    holdsPlainScalar (StructV fields) → holdsPlainScalar (PtrV (Some (StructV fields))).



End FlatteningVocabulary.

(** ** Vocabulary of the handler of service integrations *)

Section ServiceIntegrationVocabulary.
Context `{P : Platform}.
Import ServiceIntegrationHandler.

(** A creation request names no endpoint and no service by the empty
    string: each of the four optional names is absent or not empty. *)
Definition omitsEmptyNames (req : CreateServiceIntegrationRequest) : Prop :=
  reqDestinationEndpointID req ≠ Some "" ∧ reqDestinationService req ≠ Some "" ∧
  reqSourceEndpointID req ≠ Some "" ∧ reqSourceService req ≠ Some "".



End ServiceIntegrationVocabulary.

(** * Properties *)

(** ** Footprints: which calls a step of the pass can make *)

Section Footprints.
Context `{P : Platform}.
Import instanceReconcilerHelper.

Lemma only_app ks l1 l2 : only ks l1 → only ks l2 → only ks (l1 ++ l2).
Proof. unfold only. rewrite Forall_app. tauto. Qed.

Lemma only_weaken ks ks' l : ks ⊆ ks' → only ks l → only ks' l.
Proof. unfold only. intros Hs Hl. eapply Forall_impl; [exact Hl|]. intros c Hc. by apply Hs. Qed.

Lemma only_elem ks l c : only ks l → c ∈ l → kindOfCall c ∈ ks.
Proof. unfold only. rewrite Forall_forall. auto. Qed.







End Footprints.

Create HintDb footprint.


Section PhaseFootprints.
Context `{P : Platform}.
Import instanceReconcilerHelper.





End PhaseFootprints.

(** Runs a step symbolically in the hypothesis [H : m st = (a, st')]: every
    result of a call and every test is split into its cases. *)
Ltac run_in H :=
  repeat (simpl in H;
          match type of H with
          | context [match ?x with _ => _ end] =>
              lazymatch x with
              | context [match _ with _ => _ end] => fail
              | _ => destruct x eqn:?
              end
          end);
  simplify_eq.

(** Membership in a list given by its elements. *)
Ltac elem_cases H :=
  rewrite ?elem_of_app, ?elem_of_cons, ?elem_of_nil in H;
  destruct_or? H; try done; simplify_eq.

Section PassStructure.
Context `{P : Platform}.
Import instanceReconcilerHelper.




End PassStructure.

(** ** Idempotent create/update *)

Section Idempotence.
Context `{P : Platform}.
Import instanceReconcilerHelper.




End Idempotence.

(** ** The fixed requeue interval *)

Section Requeue.
Context `{P : Platform}.
Import instanceReconcilerHelper.





End Requeue.

(** ** Create-or-update on an object stripped of its progress annotations *)

Section CreateOrUpdate.
Context `{P : Platform}.
Import instanceReconcilerHelper.






End CreateOrUpdate.

(** ** Finalizer ordering *)

Section FinalizerOrdering.
Context `{P : Platform}.
Import instanceReconcilerHelper.


(** A call that is not among the first calls of a list comes behind them. *)
Lemma split_behind (l1 rest pre post : list Call) (c : Call) :
  l1 ++ rest = pre ++ c :: post → c ∉ l1 → ∃ pre', pre = l1 ++ pre'.
Proof.
  revert pre. induction l1 as [|a l1 IH]; intros pre E Hc.
  - by exists pre.
  - destruct pre as [|p pre]; simpl in E; simplify_eq.
    + exfalso. apply Hc. constructor.
    + destruct (IH pre) as (pre' & ->); [done | set_solver |]. by exists pre'.
Qed.



End FinalizerOrdering.

(** ** Failure to resolve the credentials *)

Section Credentials.
Context `{P : Platform}.

(** C7: when the credential secret the object refers to cannot be fetched,
    or no provider client can be built from its token, the pass records one
    warning and nothing else, returns an error, and leaves the object as it
    was read and the world outside as it was. *)
Theorem credential_failure_aborts_without_mutation
    (c : Controller.t) (req : Controller.Request) (h : Handlers.t)
    (w : World) (o0 o : Object) r st' :
  client.GetObject (Controller.Client c) (Controller.reqNamespacedName req) w = inl o →
  let key := {| nnName := refName (AuthSecretRef o);
                nnNamespace := nnNamespace (Controller.reqNamespacedName req) |} in
  (∃ e, client.GetSecret (Controller.Client c) key w = inr e)
  ∨ (∃ s e, client.GetSecret (Controller.Client c) key w = inl s ∧
            NewTokenClient (default "" (Data s !! refKey (AuthSecretRef o)))
              "k8s-operator/" = inr e) →
  Controller.reconcileInstance c req h (Controller.start w o0) = (r, st') →
  (∃ warning, calls st' = [warning] ∧ isWarning warning = true) ∧
  (∃ e, r = (noResult, Some e)) ∧
  obj st' = o ∧ world st' = w.
Proof.
  intros Hget key Hfail Hrun.
  unfold Controller.reconcileInstance, Controller.getObject, Controller.getSecret,
    Controller.start, Event, Eventf, emit, observe, getObj, getSec, setObj, setSec,
    bind, ret in Hrun.
  simpl in Hrun. rewrite Hget in Hrun. simpl in Hrun. fold key in Hrun.
  destruct Hfail as [(e & Hs) | (s & e & Hs & Hc)]; rewrite Hs in Hrun; simpl in Hrun.
  - simplify_eq. simpl. eauto 10.
  - rewrite Hc in Hrun. simpl in Hrun. simplify_eq. simpl. eauto 10.
Qed.

(** Once the object is read and its credentials are resolved, the pass is the
    one of the helper, on the object and the secret as read and with no call
    made yet. *)
Lemma credentials_resolved
    (c : Controller.t) (req : Controller.Request) (h : Handlers.t)
    (w : World) (o0 o : Object) (s : Secret) (avn : AivenClient) :
  client.GetObject (Controller.Client c) (Controller.reqNamespacedName req) w = inl o →
  client.GetSecret (Controller.Client c)
    {| nnName := refName (AuthSecretRef o);
       nnNamespace := nnNamespace (Controller.reqNamespacedName req) |} w = inl s →
  NewTokenClient (default "" (Data s !! refKey (AuthSecretRef o))) "k8s-operator/" = inl avn →
  Controller.reconcileInstance c req h (Controller.start w o0) =
  instanceReconcilerHelper.reconcileInstance
    {| instanceReconcilerHelper.avn := avn;
       instanceReconcilerHelper.k8s := Controller.Client c;
       instanceReconcilerHelper.h := h |}
    {| world := w; calls := []; obj := o; sec := s |}.
Proof.
  intros Hget Hsecret Hclient.
  unfold Controller.reconcileInstance, Controller.getObject, Controller.getSecret,
    Controller.start, observe, getObj, getSec, setObj, setSec, bind, ret.
  simpl. rewrite Hget. simpl. rewrite Hsecret. simpl. by rewrite Hclient.
Qed.

(** An object that is gone from the store ends the pass without an error and
    without a call. *)
Lemma object_not_found_ends_pass
    (c : Controller.t) (req : Controller.Request) (h : Handlers.t)
    (w : World) (o0 : Object) e :
  client.GetObject (Controller.Client c) (Controller.reqNamespacedName req) w = inr e →
  apiIsNotFound e = true →
  Controller.reconcileInstance c req h (Controller.start w o0) =
    ((noResult, None), Controller.start w o0).
Proof.
  intros Hget Hnf.
  unfold Controller.reconcileInstance, Controller.getObject, observe, bind, ret.
  simpl. rewrite Hget. simpl. by rewrite Hnf.
Qed.

End Credentials.

(** ** Finalization *)

Section Finalization.
Context `{P : Platform}.
Import instanceReconcilerHelper.

(** What [finalize] does to the finalizers of the object: they are those the
    handler left, without the deletion finalizer exactly when [delete]
    reported [finalised] and returned no error or one that [canBeDeleted]
    accepts. *)
Lemma finalize_finalizers i st o' finalised err w' :
  Handlers.delete (h i) (avn i) (obj st) (world st) = (o', (finalised, err), w') →
  Finalizers (obj (finalize i st).2) =
    if finalised && canBeDeleted o' err
    then controllerutil.RemoveFinalizer (Finalizers o') instanceDeletionFinalizer
    else Finalizers o'.
Proof.
  intros Hdel.
  unfold finalize, finalizeAfterDelete, callDelete, removeFinalizer,
    Event, emit, external, getObj, setObj, bind, ret.
  simpl. rewrite Hdel. simpl.
  destruct err as [e|]; simpl.
  - destruct (negb _) eqn:Hc; simpl.
    + apply negb_true_iff in Hc. simpl in Hc. rewrite Hc. by rewrite andb_false_r.
    + apply negb_false_iff in Hc. simpl in Hc. rewrite Hc, andb_true_r.
      destruct finalised; simpl; [|done].
      destruct (client.Update _ _ _) as [[?|] ?]; done.
  - rewrite andb_true_r. destruct finalised; simpl; [|done].
    destruct (client.Update _ _ _) as [[?|] ?]; done.
Qed.

(** When [delete] does not report [finalised], the finalizer stays, whatever
    the error and whatever [canBeDeleted] says of it. *)
Lemma finalize_not_finalised i st o' err w' :
  Handlers.delete (h i) (avn i) (obj st) (world st) = (o', (false, err), w') →
  Finalizers (obj (finalize i st).2) = Finalizers o'.
Proof. intros Hdel. by rewrite (finalize_finalizers _ _ _ _ _ _ Hdel). Qed.

(** The errors of the deferred updates do not reach the caller: what
    [updateInstanceStateAndSecretUntilRunning] returns is what its [return]
    statement fixed. *)
Lemma deferred_errors_are_dropped i st :
  (updateInstanceStateAndSecretUntilRunning i st).1 = (checkInstance i st).1.1.
Proof.
  unfold updateInstanceStateAndSecretUntilRunning, bind, ret.
  destruct (checkInstance i st) as [[results err] st1]. simpl.
  by destruct (persistDeferred i err st1).
Qed.

End Finalization.

Section Divergences.
#[local] Existing Instance demoPlatform.
Import instanceReconcilerHelper.

(** C1, on the code: an object marked for deletion that was never processed
    and never running, and a [delete] that fails with an invalid-token error
    (returning [false] with the error, as the handlers of the package do).
    [canBeDeleted] accepts the error, yet the pass answers with a requeue and
    the deletion finalizer is still on the object. *)
Theorem forced_removal_keeps_finalizer :
  let err := errorString "403: Invalid token" in
  let i := demoHelper (demoStore (inl demoDeletedObject) (inl demoProtectedSecret) None None None)
             (demoHandler (true, None) None (false, Some err) None true) in
  let run := reconcileInstance i (demoState demoDeletedObject demoProtectedSecret) in
  canBeDeleted demoDeletedObject (Some err) = true ∧
  run.1 = ({| Requeue := true; RequeueAfter := requeueTimeout |}, None) ∧
  Finalizers (obj run.2) = [instanceDeletionFinalizer].
Proof. vm_compute. done. Qed.

(** C2, on the code: the read-back succeeds and flags a running instance,
    the status update fails and the object update succeeds. Both updates are
    attempted and the deferred function holds their combined error, but the
    function returns a nil error, and the pass reports success. *)
Theorem persistence_failure_is_not_surfaced :
  let conflict := errorString "conflict" in
  let i := demoHelper
             (demoStore (inl demoProcessedObject) (inl demoProtectedSecret)
                None None (Some conflict))
             (demoHandler (true, None) None (true, None) None true) in
  let st := demoState demoProcessedObject demoProtectedSecret in
  let run := updateInstanceStateAndSecretUntilRunning i st in
  run.1 = (true, None) ∧
  List.map kindOfCall (calls run.2) = [KGet; KStatusUpdate; KUpdate] ∧
  (persistDeferred i None (checkInstance i st).2).1 = Some (multiError [conflict]) ∧
  (reconcileInstance i st).1 = (noResult, None).
Proof. vm_compute. done. Qed.

(** C6, on the code: the "generation processed" annotation of the object is
    set, to a generation that is no longer the current one; [canBeDeleted]
    accepts an invalid-token error for it. *)
Theorem stale_processed_generation_can_be_deleted :
  Annotations demoStaleObject !! processedGenerationAnnotation = Some "1" ∧
  canBeDeleted demoStaleObject (Some (errorString "403: Invalid token")) = true.
Proof. vm_compute. done. Qed.

End Divergences.

(** ** Flattening of user configurations *)

Section Flattening.

Lemma UserConfigurationToAPI_struct fields :
  UserConfigurationToAPI (StructV fields) =
    match convertFields fields ∅ with
    | Panics => Panics
    | Returns result =>
        match prune result with
        | Panics => Panics
        | Returns result => Returns (MapV (Some result))
        end
    end.
Proof.
  simpl.
  match goal with
  | |- match ?f fields ∅ with _ => _ end = _ =>
      assert (E : ∀ l r, f l r = convertFields l r)
  end.
  { induction l as [|[tag x] l IH]; intros r; simpl; [done|].
    destruct (UserConfigurationToAPI x); [apply IH | done]. }
  by rewrite E.
Qed.

Lemma UserConfigurationToAPI_pointer_to_struct fields :
  UserConfigurationToAPI (PtrV (Some (StructV fields))) =
  UserConfigurationToAPI (StructV fields).
Proof. reflexivity. Qed.

Lemma pruneLoop_lookup entries m0 :
  (∀ k x, (k, x) ∈ entries → ∃ b, pruneEntry x = Returns b) →
  ∃ m', pruneLoop entries m0 = Returns m' ∧
    (∀ k, m0 !! k = None → m' !! k = None) ∧
    (∀ k x, (k, x) ∈ entries → pruneEntry x = Returns true → m' !! k = None) ∧
    (∀ k, (∀ x, (k, x) ∈ entries → pruneEntry x = Returns false) → m' !! k = m0 !! k).
Proof.
  revert m0. induction entries as [|[key val] rest IH]; intros m0 Hok; simpl.
  { exists m0. split_and!; [done.. | |done]. intros k x Hin. by apply elem_of_nil in Hin. }
  destruct (Hok key val) as [b Hb]; [constructor|]. rewrite Hb.
  assert (Hrest : ∀ k x, (k, x) ∈ rest → ∃ b, pruneEntry x = Returns b).
  { intros k x Hin. apply (Hok k x). by constructor. }
  destruct b.
  - destruct (IH (delete key m0) Hrest) as (m' & -> & Hnone & Hdel & Hkeep).
    exists m'. split_and!; [done| | |].
    + intros k Hk. apply Hnone. rewrite lookup_delete. by case_decide.
    + intros k x Hin Hx. apply elem_of_cons in Hin as [[= -> ->]|Hin]; [|by eapply Hdel].
      apply Hnone, lookup_delete_eq.
    + intros k Hk. rewrite Hkeep by (intros x Hin; apply Hk; by constructor).
      apply lookup_delete_ne. intros ->.
      specialize (Hk val (list_elem_of_here _ _)). congruence.
  - destruct (IH m0 Hrest) as (m' & -> & Hnone & Hdel & Hkeep).
    exists m'. split_and!; [done..| |].
    + intros k x Hin Hx. apply elem_of_cons in Hin as [[= -> ->]|Hin]; [congruence|].
      by eapply Hdel.
    + intros k Hk. apply Hkeep. intros x Hin. apply Hk. by constructor.
Qed.

(** The pruning loop, by the lookups of its result: a key whose value the
    loop deletes is gone, every other key keeps its value. *)
Lemma prune_lookup m :
  (∀ k x, m !! k = Some x → ∃ b, pruneEntry x = Returns b) →
  ∃ m', prune m = Returns m' ∧
    (∀ k, m !! k = None → m' !! k = None) ∧
    (∀ k x, m !! k = Some x → pruneEntry x = Returns true → m' !! k = None) ∧
    (∀ k x, m !! k = Some x → pruneEntry x = Returns false → m' !! k = Some x).
Proof.
  intros Hok. unfold prune.
  destruct (pruneLoop_lookup (map_to_list m) m) as (m' & Hrun & Hnone & Hdel & Hkeep).
  { intros k x Hin. apply elem_of_map_to_list in Hin. eauto. }
  exists m'. split_and!; [done..| |].
  - intros k x Hk Hx. apply (Hdel k x); [|done]. by apply elem_of_map_to_list.
  - intros k x Hk Hx. rewrite Hkeep; [done|].
    intros x' Hin. apply elem_of_map_to_list in Hin. congruence.
Qed.







End Flattening.

(** ** Creation of a service integration *)

Section ServiceIntegrationCreate.
Context `{P : Platform}.
Import ServiceIntegrationHandler.

(** On the creation path the local [integration] is still the nil pointer it
    was declared as when its field is read: whenever the integration has no
    identifier yet, its user configuration converts, and [Create] returns no
    error, the method panics. *)
Lemma createOrUpdate_create_succeeds_then_panics (h : t) (si : ServiceIntegration) userConfig :
  ID (Status si) = "" →
  getUserConfig si = Returns userConfig →
  (Create h (Project (Spec si))
     {| reqDestinationEndpointID := toOptionalStringPointer (DestinationEndpointID (Spec si));
        reqDestinationService := toOptionalStringPointer (DestinationServiceName (Spec si));
        reqIntegrationType := IntegrationType (Spec si);
        reqSourceEndpointID := toOptionalStringPointer (SourceEndpointID (Spec si));
        reqSourceService := toOptionalStringPointer (SourceServiceName (Spec si));
        reqUserConfig := userConfig |}).2 = None →
  createOrUpdate h (ofServiceIntegration si) = Panics.
Proof.
  intros Hid Hconfig Hcreate. unfold createOrUpdate. simpl. rewrite Hid, Hconfig. simpl.
  destruct (Create h _ _) as [integration err]. simpl in Hcreate. by rewrite Hcreate.
Qed.

(** The handler of service integrations reports a failed deletion with
    [false] and the error, and a resource that is already gone at the provider
    as finalized, without an error. *)
Lemma delete_failure_is_not_finalised (h : t) (si : ServiceIntegration) e :
  Delete h (Project (Spec si)) (ID (Status si)) = Some e →
  IsNotFound e = false →
  delete h (ofServiceIntegration si) =
    Returns (false, Some (Errorf_w "aiven client delete service ingtegration error: " e)).
Proof. intros Hd Hnf. unfold delete. simpl. by rewrite Hd, Hnf. Qed.

Lemma delete_not_found_is_finalized (h : t) (si : ServiceIntegration) e :
  Delete h (Project (Spec si)) (ID (Status si)) = Some e →
  IsNotFound e = true →
  delete h (ofServiceIntegration si) = Returns (true, None).
Proof. intros Hd Hnf. unfold delete. simpl. by rewrite Hd, Hnf. Qed.

End ServiceIntegrationCreate.

Section ServiceIntegrationDivergence.
#[local] Existing Instance demoPlatform.
Import ServiceIntegrationHandler.

(** C10, on the code: a service integration without an identifier, and a
    provider whose [Create] succeeds and returns the created integration. The
    user configuration converts and [Create] returns no error, and the method
    panics on the nil pointer instead of recording the identifier. *)
Theorem create_success_dereferences_nil_pointer :
  ID (Status demoServiceIntegration) = "" ∧
  getUserConfig demoServiceIntegration = Returns (Some ∅) ∧
  (∀ project request, (Create demoProvider project request).2 = None) ∧
  createOrUpdate demoProvider (ofServiceIntegration demoServiceIntegration) = Panics.
Proof. split_and!; [done | by vm_compute | done | by vm_compute]. Qed.

End ServiceIntegrationDivergence.

(** ** The statements on sample passes *)

Section Witnesses.
#[local] Existing Instance demoPlatform.
Import instanceReconcilerHelper.





Lemma credential_failure_aborts_without_mutation_witness :
  let c := {| Controller.Client :=
                demoStore (inl demoObject) (inr (errorString "secret not found"))
                  None None None |} in
  let req := {| Controller.reqNamespacedName :=
                  {| nnNamespace := "default"; nnName := "db" |} |} in
  let h := demoHandler (true, None) None (true, None) None true in
  let run := Controller.reconcileInstance c req h (Controller.start tt demoObject) in
  (∃ warning, calls run.2 = [warning] ∧ isWarning warning = true) ∧
  (∃ e, run.1 = (noResult, Some e)) ∧
  obj run.2 = demoObject ∧ world run.2 = tt.
Proof.
  intros c req h run.
  apply (credential_failure_aborts_without_mutation c req h tt demoObject demoObject).
  - reflexivity.
  - left. exists (errorString "secret not found"). reflexivity.
  - apply surjective_pairing.
Defined.


End Witnesses.

(** ** The scenarios of the specification, on sample passes *)

Section Scenarios.
#[local] Existing Instance demoPlatform.
Import instanceReconcilerHelper.

(** A new object (generation 1, no annotation, no finalizer): both finalizers
    are added, [createOrUpdate] is called, and the object ends up processed
    and running. *)
Example scenario_new_object :
  let i := demoHelper (demoStore (inl demoObject) (inl demoSecret) None None None)
             (demoHandler (true, None) None (true, None) None true) in
  let run := reconcileInstance i (demoState demoObject demoSecret) in
  run.1 = (noResult, None) ∧
  List.map kindOfCall (calls run.2) =
    [KEvent; KUpdateSecret; KUpdate; KEvent; KEvent; KCheckPreconditions; KEvent; KEvent;
     KCreateOrUpdate; KEvent; KEvent; KGet; KStatusUpdate; KUpdate; KEvent] ∧
  secretFinalizers (sec run.2) = [secretProtectionFinalizer] ∧
  Finalizers (obj run.2) = [instanceDeletionFinalizer] ∧
  Annotations (obj run.2) !! processedGenerationAnnotation = Some "1" ∧
  isAlreadyRunning (obj run.2) = true.
Proof. vm_compute. done. Qed.

(** A processed object whose read-back does not flag it as running: a
    requeue after ten seconds, and no [createOrUpdate] call. *)
Example scenario_not_yet_running :
  let i := demoHelper (demoStore (inl demoProcessedObject) (inl demoProtectedSecret)
                         None None None)
             (demoHandler (true, None) None (true, None) None false) in
  let run := reconcileInstance i (demoState demoProcessedObject demoProtectedSecret) in
  run.1 = ({| Requeue := true; RequeueAfter := 10 * time.Second |}, None) ∧
  List.map kindOfCall (calls run.2) =
    [KEvent; KEvent; KCheckPreconditions; KEvent; KEvent; KGet; KStatusUpdate; KUpdate].
Proof. vm_compute. done. Qed.

(** An object marked for deletion whose [delete] returns [(false, nil)]: a
    requeue, and the finalizer still in place. *)
Example scenario_deletion_pending :
  let i := demoHelper (demoStore (inl demoDeletedObject) (inl demoProtectedSecret)
                         None None None)
             (demoHandler (true, None) None (false, None) None true) in
  let run := reconcileInstance i (demoState demoDeletedObject demoProtectedSecret) in
  run.1 = ({| Requeue := true; RequeueAfter := 10 * time.Second |}, None) ∧
  Finalizers (obj run.2) = [instanceDeletionFinalizer].
Proof. vm_compute. done. Qed.

(** An object marked for deletion whose [delete] reports it finalized: the
    finalizer is removed and the removal persisted. *)
Example scenario_deletion_finalized :
  let i := demoHelper (demoStore (inl demoDeletedObject) (inl demoProtectedSecret)
                         None None None)
             (demoHandler (true, None) None (true, None) None true) in
  let run := reconcileInstance i (demoState demoDeletedObject demoProtectedSecret) in
  run.1 = (noResult, None) ∧
  Finalizers (obj run.2) = [] ∧
  List.map kindOfCall (calls run.2) = [KEvent; KEvent; KDelete; KEvent; KUpdate].
Proof. vm_compute. done. Qed.

(** A structure with a field of interface type holding nil, an array, a map
    of another type, or an [int64] that is not behind a pointer makes
    [UserConfigurationToAPI] panic. *)
Example flatten_panics :
  UserConfigurationToAPI (StructV [("any", NilInterface)]) = Panics ∧
  UserConfigurationToAPI (StructV [("digest", OtherV ArrayT false)]) = Panics ∧
  UserConfigurationToAPI (StructV [("labels", OtherV TypedMapT false)]) = Panics ∧
  UserConfigurationToAPI (StructV [("port", Int64V 5432)]) = Panics.
Proof. vm_compute. done. Qed.

(** A later field with the key of an earlier one overwrites it. *)
Example flatten_duplicate_key :
  UserConfigurationToAPI
    (StructV [("port,omitempty", PtrV (Some (Int64V 5432))); ("port", PtrV None)]) =
  Returns (MapV (Some ∅)).
Proof. vm_compute. done. Qed.

End Scenarios.

(** * Further properties of the pass *)

Section DeletionPass.
Context `{P : Platform}.
Import instanceReconcilerHelper.



End DeletionPass.

Section PassFactsProofs.
Context `{P : Platform}.
Import instanceReconcilerHelper.

Lemma endsWith_last Q l c : last l = Some c → Q c = true → endsWith Q l.
Proof. intros Hl Hc. apply last_Some in Hl as [pre ->]. by exists pre, c. Qed.

Lemma countKind_app k l1 l2 : countKind k (l1 ++ l2) = countKind k l1 + countKind k l2.
Proof. unfold countKind. by rewrite filter_app, length_app. Qed.

Lemma countKind_only ks k l : only ks l → k ∉ ks → countKind k l = 0.
Proof.
  unfold only, countKind. induction 1 as [|c l Hc _ IH]; intros Hk; [done|].
  rewrite filter_cons. case_decide; [|by apply IH]. congruence.
Qed.

Lemma waitUntilRunning_facts i st r st' :
  waitUntilRunning i st = (r, st') →
  ∃ new, calls st' = calls st ++ new ∧ runningCheckFacts new r st'.
Proof.
  intros Hrun.
  unfold waitUntilRunning, updateInstanceStateAndSecretUntilRunning, checkInstance,
    persistDeferred, createOrUpdateSecret, callGet, statusUpdate, update,
    Event, emit, external, getObj, setObj, bind, ret in Hrun.
  run_in Hrun; simpl; rewrite <- ?app_assoc; simpl.
  all: eexists; (split; [reflexivity|]).
  all: unfold runningCheckFacts; split_and!.
  all: try (repeat constructor; fail).
  all: try (unfold countKind; simpl; repeat case_decide; simpl; done).
  all: try (unfold resultShape, requeueAfterTimeout; eauto; fail).
  all: try (simpl; intros ? [=]; eapply endsWith_last; [reflexivity|done]).
  all: try (intros go go' gs gerr Hin; elem_cases Hin;
            first [ eexists [_], [], _, _, _; split; [reflexivity | constructor]
                  | eexists [_], [_], _, _, _; split; [reflexivity | repeat constructor] ]).
  all: try (intros owner want; split; intros [x Hin]; elem_cases Hin;
            eexists; repeat constructor).
  all: intros _; simpl; split; [by destruct (isAlreadyRunning _)|];
    eexists _, _; repeat constructor.
Qed.

End PassFactsProofs.


(** Facts about a list of calls given by its elements. *)
Ltac count_explicit :=
  let k := fresh "k" in let Hk := fresh "Hk" in
  intros k Hk; unfold handlerKinds in Hk; elem_cases Hk;
  unfold countKind; simpl; repeat case_decide; simpl; try done; lia.

Ltac shape_explicit := unfold resultShape, requeueAfterTimeout; eauto.

Ltac warned_explicit :=
  simpl; intros ? [=]; (eapply endsWith_last; [reflexivity | done]).

Ltac quiet_explicit :=
  first [ let Hin := fresh "Hin" in intros ? ? ? ? Hin; by elem_cases Hin
        | let Hin := fresh "Hin" in intros ? ?; split; intros [? Hin]; by elem_cases Hin ].

Section PassFactsLifting.
Context `{P : Platform}.
Import instanceReconcilerHelper.

Lemma persistedAfterGet_prefix ks pre new :
  only ks pre → KGet ∉ ks → persistedAfterGet new → persistedAfterGet (pre ++ new).
Proof.
  intros Hpre Hk Hnew o o' s err Hin. apply elem_of_app in Hin as [Hin|Hin].
  { apply (only_elem _ _ _ Hpre) in Hin. simpl in Hin. done. }
  destruct (Hnew o o' s err Hin) as (p & mid & post & e1 & e2 & -> & Hmid).
  exists (pre ++ p), mid, post, e1, e2. by rewrite <- app_assoc.
Qed.

Lemma secretFollowsGet_prefix ks pre new :
  only ks pre → KGet ∉ ks → KCreateOrUpdateSecret ∉ ks →
  secretFollowsGet new → secretFollowsGet (pre ++ new).
Proof.
  intros Hpre Hg Hs Hnew owner want.
  assert (Hin : ∀ c, kindOfCall c ∈ [KGet; KCreateOrUpdateSecret] →
                c ∈ pre ++ new ↔ c ∈ new).
  { intros c Hc. rewrite elem_of_app. split; [|by right]. intros [Hin|]; [|done].
    apply (only_elem _ _ _ Hpre) in Hin. elem_cases Hc; congruence. }
  split.
  - intros [x Hx]. apply Hin in Hx; [|set_solver].
    destruct (proj1 (Hnew owner want)) as [o Ho]; [by exists x|].
    exists o. apply Hin; [set_solver|done].
  - intros [o Ho]. apply Hin in Ho; [|set_solver].
    destruct (proj2 (Hnew owner want)) as [x Hx]; [by exists o|].
    exists x. apply Hin; [set_solver|done].
Qed.

Lemma secretFollowsGet_quiet ks l :
  only ks l → KGet ∉ ks → KCreateOrUpdateSecret ∉ ks → secretFollowsGet l.
Proof.
  intros Hl Hg Hs owner want.
  split; intros [x Hin]; apply (only_elem _ _ _ Hl) in Hin; simpl in Hin; done.
Qed.

Lemma persistedAfterGet_quiet ks l : only ks l → KGet ∉ ks → persistedAfterGet l.
Proof.
  intros Hl Hg o o' s err Hin. apply (only_elem _ _ _ Hl) in Hin. simpl in Hin. done.
Qed.

Lemma endsWith_prefix Q pre new : endsWith Q new → endsWith Q (pre ++ new).
Proof. intros (p & c & -> & Hc). exists (pre ++ p), c. by rewrite app_assoc. Qed.

Lemma endsWith_impl (Q Q' : Call → bool) l :
  (∀ c, Q c = true → Q' c = true) → endsWith Q l → endsWith Q' l.
Proof. intros HQ (p & c & -> & Hc). exists p, c. auto. Qed.

Lemma persistedAfterGet_cons c new :
  kindOfCall c ≠ KGet → persistedAfterGet new → persistedAfterGet (c :: new).
Proof.
  intros Hc. apply (persistedAfterGet_prefix [kindOfCall c] [c]); [by repeat constructor|].
  set_solver.
Qed.

Lemma secretFollowsGet_cons c new :
  kindOfCall c ≠ KGet → kindOfCall c ≠ KCreateOrUpdateSecret →
  secretFollowsGet new → secretFollowsGet (c :: new).
Proof.
  intros Hc Hs. apply (secretFollowsGet_prefix [kindOfCall c] [c]);
    [by repeat constructor| |]; set_solver.
Qed.

Lemma endsWith_cons Q c new : endsWith Q new → endsWith Q (c :: new).
Proof. apply (endsWith_prefix Q [c]). Qed.

Lemma countKind_cons k c l :
  countKind k (c :: l) = (if decide (kindOfCall c = k) then 1 else 0) + countKind k l.
Proof. unfold countKind. rewrite filter_cons. by case_decide. Qed.

Lemma passFacts_gated l1 l2 r :
  only [KEvent; KDelete; KCheckPreconditions; KUpdateSecret; KUpdate] l1 →
  (l2 = [] ∨ ∃ o o', HandlerCheckPreconditions o o' true None ∈ l1) →
  (∀ k, k ∈ handlerKinds → countKind k (l1 ++ l2) ≤ 1) →
  resultShape r →
  (∀ e, r.2 = Some e → endsWith announces (l1 ++ l2)) →
  persistedAfterGet l2 →
  secretFollowsGet l2 →
  passFacts (l1 ++ l2) r.
Proof.
  intros H1 Hgated Hcount Hshape Herr Hpers Hsec. split_and!; [done..| | |].
  - eapply persistedAfterGet_prefix; [done| set_solver |done].
  - eapply secretFollowsGet_prefix; [done| set_solver | set_solver |done].
  - by exists l1, l2.
Qed.

Lemma runningCheck_counts nw r st' k :
  runningCheckFacts nw r st' → k ∈ handlerKinds →
  countKind k nw = if decide (k = KGet) then 1 else 0.
Proof.
  intros (Honly & Hget & _) Hk. unfold handlerKinds in Hk.
  elem_cases Hk; simpl; [| |done|]; by rewrite (countKind_only _ _ _ Honly) by set_solver.
Qed.

Lemma createOrUpdateAndWait_facts i st r st' :
  createOrUpdateAndWait i st = (r, st') →
  ∃ new, calls st' = calls st ++ new ∧ passFacts new r ∧ runningConfirmed new r st'.
Proof.
  intros Hrun.
  unfold createOrUpdateAndWait, checkPreconditions, createOrUpdateInstance,
    callCheckPreconditions, callCreateOrUpdate,
    Event, emit, external, getObj, setObj, bind, ret in Hrun.
  run_in Hrun; simpl in *.
  all: repeat match goal with
              | H : negb ?b = _ |- _ => is_var b; destruct b; try discriminate
              end.
  all: try (apply waitUntilRunning_facts in Hrun as (nw & -> & Hw); simpl).
  all: eexists; (split; [rewrite <- ?app_assoc; reflexivity|]); simpl.
  all: split;
    [| first [ done | by destruct Hw as (_ & _ & _ & _ & _ & _ & Hconf);
                      intros Hr; destruct (Hconf Hr) as (? & o' & s' & Hin);
                      split; [done|]; exists o', s'; set_solver ] ].
  (* the precondition check failed, or answered false *)
  1,2: lazymatch goal with
       | |- passFacts ?l ?r =>
           let H := fresh in pose proof (passFacts_gated l [] r) as H;
           rewrite app_nil_r in H; apply H; clear H
       end.
  1,8: repeat constructor.
  1,7: by left.
  1,6: count_explicit.
  1,5: shape_explicit.
  1,4: warned_explicit.
  1-4: quiet_explicit.
  (* the precondition check answered true *)
  all: lazymatch goal with
       | |- passFacts (?a :: ?b :: ?rest) ?r => apply (passFacts_gated [a; b] rest r)
       end;
       [ repeat constructor | right; eexists _, _; repeat constructor | ..].
  - count_explicit.
  - shape_explicit.
  - warned_explicit.
  - quiet_explicit.
  - quiet_explicit.
  - intros k Hk. cbn [app].
    rewrite !countKind_cons, (runningCheck_counts _ _ _ _ Hw Hk).
    unfold handlerKinds in Hk. elem_cases Hk; simpl; repeat case_decide; try done; lia.
  - by destruct Hw as (_ & _ & ? & _).
  - intros err He. destruct Hw as (_ & _ & _ & Herr & _).
    cbn [app]. repeat apply endsWith_cons.
    eapply endsWith_impl; [|by eapply Herr].
    intros c Hc. unfold announces. by rewrite Hc.
  - destruct Hw as (_ & _ & _ & _ & Hpers & _).
    cbn [app]. by repeat (apply persistedAfterGet_cons; [done|]).
  - destruct Hw as (_ & _ & _ & _ & _ & Hsec & _).
    cbn [app]. by repeat (apply secretFollowsGet_cons; [done|done|]).
  - intros k Hk. cbn [app].
    rewrite !countKind_cons, (runningCheck_counts _ _ _ _ Hw Hk).
    unfold handlerKinds in Hk. elem_cases Hk; simpl; repeat case_decide; try done; lia.
  - by destruct Hw as (_ & _ & ? & _).
  - intros err He. destruct Hw as (_ & _ & _ & Herr & _).
    cbn [app]. repeat apply endsWith_cons.
    eapply endsWith_impl; [|by eapply Herr].
    intros c Hc. unfold announces. by rewrite Hc.
  - destruct Hw as (_ & _ & _ & _ & Hpers & _).
    cbn [app]. by repeat (apply persistedAfterGet_cons; [done|]).
  - destruct Hw as (_ & _ & _ & _ & _ & Hsec & _).
    cbn [app]. by repeat (apply secretFollowsGet_cons; [done|done|]).
Qed.

End PassFactsLifting.

Ltac explicit_facts :=
  first [ by repeat constructor | by left | count_explicit
        | by shape_explicit | warned_explicit
        | unfold persistedAfterGet, secretFollowsGet; quiet_explicit ].

Section PassFactsWhole.
Context `{P : Platform}.
Import instanceReconcilerHelper.

Lemma passFacts_prefix pre new r :
  only [KEvent; KUpdateSecret; KUpdate] pre → passFacts new r → passFacts (pre ++ new) r.
Proof.
  intros Hpre (Hcount & Hshape & Herr & Hpers & Hsec & l1 & l2 & -> & Hl1 & Hl2).
  unfold passFacts. split_and!.
  - intros k Hk. rewrite countKind_app, (countKind_only _ _ _ Hpre); [by apply Hcount|].
    unfold handlerKinds in Hk. set_solver.
  - done.
  - intros e He. apply endsWith_prefix. by eapply Herr.
  - apply (persistedAfterGet_prefix _ _ _ Hpre); [set_solver|done].
  - apply (secretFollowsGet_prefix _ _ _ Hpre); [set_solver|set_solver|done].
  - exists (pre ++ l1), l2. rewrite app_assoc. split; [done|]. split.
    + apply only_app; [|done]. eapply only_weaken; [|exact Hpre]. set_solver.
    + destruct Hl2 as [->|(o & o' & Hin)]; [by left|].
      right. exists o, o'. set_solver.
Qed.

Lemma app_split_last {A} (l pre x nw : list A) :
  x = l ++ pre → x ++ nw = l ++ (pre ++ nw).
Proof. intros ->. by rewrite app_assoc. Qed.

Lemma runningConfirmed_prefix pre new r st' :
  runningConfirmed new r st' → runningConfirmed (pre ++ new) r st'.
Proof.
  intros H Hr. destruct (H Hr) as (Hrun & o & s & Hin).
  split; [done|]. exists o, s. set_solver.
Qed.

Lemma reconcileInstance_facts i st r st' :
  reconcileInstance i st = (r, st') →
  ∃ new, calls st' = calls st ++ new ∧ passFacts new r ∧
    (isMarkedForDeletion (obj st) = false → runningConfirmed new r st').
Proof.
  intros Hrun. unfold reconcileInstance, Event, emit, getObj, bind in Hrun.
  cbn [fst snd obj] in Hrun.
  destruct (isMarkedForDeletion (obj st)) eqn:Hmark.
  - unfold finalize, finalizeAfterDelete, callDelete, removeFinalizer,
      Event, emit, external, getObj, setObj, bind, ret in Hrun.
    run_in Hrun; simpl; rewrite <- ?app_assoc; simpl.
    all: eexists; (split; [reflexivity|]); (split; [|done]).
    all: lazymatch goal with
         | |- passFacts ?l ?r =>
             let H := fresh in pose proof (passFacts_gated l [] r) as H;
             rewrite app_nil_r in H; apply H; clear H
         end.
    all: explicit_facts.
  - unfold addFinalizersAndContinue, addInstanceFinalizerAndContinue, addFinalizerToSecret,
      addFinalizer, Event, Eventf, emit, external, getObj, getSec, setObj, setSec, bind, ret
      in Hrun.
    run_in Hrun; cbn [calls obj world sec] in *.
    all: try (apply createOrUpdateAndWait_facts in Hrun as (nw & -> & Hfacts & Hconf);
              cbn [calls]; eexists (_ ++ nw);
              (split; [apply app_split_last; rewrite <- ?app_assoc; reflexivity|]);
              split; [apply passFacts_prefix; [repeat constructor; set_solver | done]
                     | intros _; by apply runningConfirmed_prefix]).
    all: rewrite <- ?app_assoc; eexists; (split; [reflexivity|]); (split; [|by intros _ [=]]).
    all: lazymatch goal with
         | |- passFacts ?l ?r =>
             let H := fresh in pose proof (passFacts_gated l [] r) as H;
             rewrite app_nil_r in H; apply H; clear H
         end.
    all: explicit_facts.
Qed.

End PassFactsWhole.

(** ** What every pass does *)

Section PassProperties.
Context `{P : Platform}.
Import instanceReconcilerHelper.

Lemma gated_before new pre c post :
  gated new → new = pre ++ c :: post →
  kindOfCall c ∈ [KCreateOrUpdate; KGet; KStatusUpdate; KCreateOrUpdateSecret] →
  ∃ o o', HandlerCheckPreconditions o o' true None ∈ pre.
Proof.
  intros (l1 & l2 & -> & Hl1 & Hl2) E Hk.
  assert (Hc : c ∉ l1).
  { intros Hin. apply (only_elem _ _ _ Hl1) in Hin.
    set_unfold in Hin. set_unfold in Hk. destruct (kindOfCall c); naive_solver. }
  destruct (split_behind _ _ _ _ _ E Hc) as (pre' & ->).
  destruct Hl2 as [->|(o & o' & Hin)].
  - rewrite app_nil_r in E. exfalso. apply Hc. rewrite E. set_solver.
  - exists o, o'. set_solver.
Qed.

(** X2: in one pass each of the four methods of the handler
    ([checkPreconditions], [createOrUpdate], [get], [delete]) is called at
    most once, whatever the handler and the object store answer. *)
Theorem handler_methods_called_at_most_once i st r st' :
  reconcileInstance i st = (r, st') →
  ∃ new, calls st' = calls st ++ new ∧
    ∀ k, k ∈ handlerKinds → countKind k new ≤ 1.
Proof.
  intros Hrun. apply reconcileInstance_facts in Hrun as (new & E & (Hcount & _) & _).
  by exists new.
Qed.

(** X3: a pass returns one of three results: done without error, a requeue
    after the fixed interval without error, or an error together with the
    empty result; an error never comes with a requeue directive. *)
Theorem pass_result_is_done_requeue_or_error i st r st' :
  reconcileInstance i st = (r, st') →
  r = (noResult, None) ∨
  r = ({| Requeue := true; RequeueAfter := requeueTimeout |}, None) ∨
  ∃ e, r = (noResult, Some e).
Proof.
  intros Hrun. apply reconcileInstance_facts in Hrun as (new & _ & (_ & Hshape & _) & _).
  exact Hshape.
Qed.

(** X4: a pass that returns an error has announced it: its last call is a
    recorded event of type Warning, or it is the update of the credential
    secret that failed to persist the protection finalizer (the one failure
    the pass returns without an event). *)
Theorem pass_error_is_announced i st r st' e :
  reconcileInstance i st = (r, st') →
  r.2 = Some e →
  ∃ pre c, calls st' = calls st ++ pre ++ [c] ∧
    (isWarning c = true ∨ ∃ s e', c = K8sUpdateSecret s (Some e')).
Proof.
  intros Hrun He.
  apply reconcileInstance_facts in Hrun as (new & E & (_ & _ & Herr & _) & _).
  destruct (Herr e He) as (pre & c & -> & Hc). exists pre, c. split; [done|].
  unfold announces in Hc. apply orb_true_iff in Hc as [Hc|Hc]; [by left|right].
  destruct c as [| | | | | |s [e'|]| | |]; try done. by exists s, e'.
Qed.


(** X6: a pass writes a secret exactly when a read-back returned that
    secret without an error, with the object of the read-back as its owner:
    no secret is written after a failed read-back or one that returned none,
    and a returned secret is never dropped. *)
Theorem secret_is_written_iff_read_back_returned_it i st r st' :
  reconcileInstance i st = (r, st') →
  ∃ new, calls st' = calls st ++ new ∧
    ∀ owner want,
      (∃ e, K8sCreateOrUpdateSecret owner want e ∈ new) ↔
      (∃ o, HandlerGet o owner (Some want) None ∈ new).
Proof.
  intros Hrun.
  apply reconcileInstance_facts in Hrun as (new & E & (_ & _ & _ & _ & Hsec & _) & _).
  by exists new.
Qed.


(** X8: nothing is created, read back or written at the provider side of a
    pass before the preconditions were met: a call of [createOrUpdate] or
    [get], an update of the status and a write of a service secret each come
    after a precondition check of the same pass that answered true without
    error. *)
Theorem provider_calls_follow_met_preconditions i st r st' :
  reconcileInstance i st = (r, st') →
  ∃ new, calls st' = calls st ++ new ∧
    ∀ pre c post, new = pre ++ c :: post →
      kindOfCall c ∈ [KCreateOrUpdate; KGet; KStatusUpdate; KCreateOrUpdateSecret] →
      ∃ o o', HandlerCheckPreconditions o o' true None ∈ pre.
Proof.
  intros Hrun.
  apply reconcileInstance_facts in Hrun as (new & E & (_ & _ & _ & _ & _ & Hgated) & _).
  exists new. split; [done|]. intros pre c post. by apply gated_before.
Qed.

End PassProperties.

(** ** The outcome of a deletion, the load of the object, wrapped errors *)

Section DeletionOutcome.
Context `{P : Platform}.
Import instanceReconcilerHelper.

Lemma Contains_app_l prefix s substr :
  strings.Contains s substr = true → strings.Contains (prefix +:+ s) substr = true.
Proof.
  intros Hs. induction prefix as [|c prefix IH]; [done|].
  change (String.String c prefix +:+ s) with (String.String c (prefix +:+ s)).
  cbn [strings.Contains]. rewrite IH. apply orb_true_r.
Qed.


(** X11: [canBeDeleted] looks for the text of the invalid-token error in the
    message, so it accepts the error also after a handler or the pass wrapped
    it with [fmt.Errorf] and the verb for wrapping, which puts the message of
    the wrapped error at the end of the new one. *)
Theorem canBeDeleted_sees_through_wrapping o e prefix :
  canBeDeleted o (Some e) = true →
  canBeDeleted o (Some (Errorf_w prefix e)) = true.
Proof.
  unfold canBeDeleted. intros H.
  apply andb_true_iff in H as [H Hc]. rewrite H. simpl.
  by apply Contains_app_l.
Qed.

End DeletionOutcome.

Section ObjectLoad.
Context `{P : Platform}.

(** X10: when the object cannot be read from the store the pass ends there:
    no event is recorded, no handler method and no write is called, the state
    stays as it was, and the result is empty. An object that is not found is
    no error (it was deleted since the request was queued); any other error
    of the read is returned as it is, without a wrapping message. *)
Theorem object_load_failure_ends_pass_silently
    (c : Controller.t) (req : Controller.Request) (h : Handlers.t) (st : State) e :
  client.GetObject (Controller.Client c) (Controller.reqNamespacedName req) (world st) = inr e →
  Controller.reconcileInstance c req h st =
    ((noResult, if apiIsNotFound e then None else Some e), st).
Proof.
  intros Hget.
  unfold Controller.reconcileInstance, Controller.getObject, observe, bind, ret.
  simpl. rewrite Hget. simpl. by destruct st.
Qed.

End ObjectLoad.

(** ** Further properties of the flattening *)

Section FlatteningFurther.
Import reflect.

Lemma pruneLoop_returns entries m0 m' :
  pruneLoop entries m0 = Returns m' →
  ∀ k x, (k, x) ∈ entries → ∃ b, pruneEntry x = Returns b.
Proof.
  revert m0. induction entries as [|[key val] rest IH]; intros m0 Hrun k x Hin.
  { by apply elem_of_nil in Hin. }
  simpl in Hrun. destruct (pruneEntry val) as [b|] eqn:Hval; [|done].
  apply elem_of_cons in Hin as [[= -> ->]|Hin]; [by exists b|].
  destruct b; by eapply IH.
Qed.

(** What is left after the pruning loop was there before and is a value the
    loop keeps. *)
Lemma prune_kept m m' k x :
  prune m = Returns m' → m' !! k = Some x → m !! k = Some x ∧ pruneEntry x = Returns false.
Proof.
  intros Hrun Hk.
  assert (Hok : ∀ k x, m !! k = Some x → ∃ b, pruneEntry x = Returns b).
  { intros k0 x0 H0. eapply (pruneLoop_returns _ _ _ Hrun k0). by apply elem_of_map_to_list. }
  destruct (prune_lookup m Hok) as (m2 & Hrun2 & Hnone & Hdel & Hkeep).
  rewrite Hrun in Hrun2. simplify_eq.
  destruct (m !! k) as [y|] eqn:Hy; [|by rewrite Hnone in Hk].
  destruct (Hok k y Hy) as [[|] Hb].
  - by rewrite (Hdel k y) in Hk.
  - rewrite (Hkeep k y) in Hk by done. by simplify_eq.
Qed.

Lemma convertFields_entries fields m0 m k x :
  convertFields fields m0 = Returns m → m !! k = Some x →
  m0 !! k = Some x ∨
  ∃ tag field, (tag, field) ∈ fields ∧ fieldName tag = k ∧
    UserConfigurationToAPI field = Returns x.
Proof.
  revert m0. induction fields as [|[tag field] rest IH]; intros m0 Hrun Hk; simpl in Hrun.
  { left. by simplify_eq. }
  destruct (UserConfigurationToAPI field) as [y|] eqn:Hy; [|done].
  destruct (IH _ Hrun Hk) as [H0|(tag' & field' & Hin & Hname & Hconv)].
  - destruct (decide (fieldName tag = k)) as [<-|Hne].
    + rewrite lookup_insert_eq in H0. simplify_eq. right. exists tag, field.
      split_and!; [constructor|done..].
    + rewrite lookup_insert_ne in H0 by done. by left.
  - right. exists tag', field'. split_and!; [by constructor|done..].
Qed.

Lemma pruneEntry_kept_not_blank x : pruneEntry x = Returns false → x ∉ NilInterface :: blanks.
Proof.
  intros Hx Hin. unfold blanks in Hin.
  rewrite !elem_of_cons, elem_of_nil in Hin.
  destruct_or? Hin; try done; subst x; by vm_compute in Hx.
Qed.

(** X12: what the flattening of a structure returns is a mapping every entry
    of which is a field of the structure, under the key of its tag and
    converted, and none of which holds a value that counts as unset: no nil
    interface, nil pointer, empty string, nil or empty mapping, or nil slice
    is ever sent to the API. *)
Theorem flattened_entries_are_converted_fields_that_are_set fields v :
  UserConfigurationToAPI (StructV fields) = Returns v →
  ∃ m, v = MapV (Some m) ∧
    ∀ k x, m !! k = Some x →
      (∃ tag field, (tag, field) ∈ fields ∧ fieldName tag = k ∧
         UserConfigurationToAPI field = Returns x) ∧
      x ∉ NilInterface :: blanks.
Proof.
  rewrite UserConfigurationToAPI_struct. intros Hrun.
  destruct (convertFields fields ∅) as [m0|] eqn:Hconv; [|done].
  destruct (prune m0) as [m|] eqn:Hprune; [|done].
  simplify_eq. exists m. split; [done|]. intros k x Hk.
  destruct (prune_kept _ _ _ _ Hprune Hk) as [H0 Hkept].
  split; [|by apply pruneEntry_kept_not_blank].
  destruct (convertFields_entries _ _ _ _ _ Hconv H0) as [He|?]; [|done].
  by rewrite lookup_empty in He.
Qed.

Lemma convertFields_panics fields m0 tag v :
  (tag, v) ∈ fields → UserConfigurationToAPI v = Panics → convertFields fields m0 = Panics.
Proof.
  revert m0. induction fields as [|[tag' field] rest IH]; intros m0 Hin Hv.
  { by apply elem_of_nil in Hin. }
  simpl. apply elem_of_cons in Hin as [[= <- <-]|Hin]; [by rewrite Hv|].
  destruct (UserConfigurationToAPI field); [by apply IH | done].
Qed.

Lemma struct_panics_with_field fields tag v :
  (tag, v) ∈ fields → UserConfigurationToAPI v = Panics →
  UserConfigurationToAPI (StructV fields) = Panics.
Proof.
  intros Hin Hv. rewrite UserConfigurationToAPI_struct.
  by rewrite (convertFields_panics _ _ _ _ Hin Hv).
Qed.

(** X13: the flattening panics on every structure that holds, at whatever
    depth, a field of kind bool or int64 that is not behind a pointer: the
    value is asserted to be a pointer of that type. *)
Theorem flatten_panics_on_plain_bool_or_int64 c :
  holdsPlainScalar c → UserConfigurationToAPI c = Panics.
Proof.
  induction 1 as [fields tag v Hin Hkind | fields tag v Hin _ IH | fields _ IH].
  - apply (struct_panics_with_field fields tag v Hin).
    destruct v as [ | | | | | | |[] ?]; simpl in Hkind; destruct Hkind; try done.
  - by apply (struct_panics_with_field fields tag v Hin).
  - by rewrite UserConfigurationToAPI_pointer_to_struct.
Qed.






Lemma pruneLoop_swap a b rest m :
  pruneLoop (a :: b :: rest) m = pruneLoop (b :: a :: rest) m.
Proof.
  destruct a as [ka va], b as [kb vb]. simpl.
  destruct (pruneEntry va) as [[]|], (pruneEntry vb) as [[]|]; try done.
  by rewrite delete_delete.
Qed.

(** X15: the order in which the pruning loop visits the entries of the
    result does not matter, neither for the mapping it leaves nor for
    whether it panics: two visits of the same entries in different orders
    give the same, so every order gives what [prune] gives with the order
    of [map_to_list]. (Go leaves the order of a range over a map
    unspecified.) *)
Theorem prune_order_is_irrelevant (order order' : list (string * value)) result :
  order ≡ₚ order' → pruneLoop order result = pruneLoop order' result.
Proof.
  intros Hperm. revert result.
  induction Hperm as [|x l l' _ IH|x y l|l l' l'' _ IH1 _ IH2]; intros m.
  - done.
  - destruct x as [k v]. simpl. destruct (pruneEntry v) as [[]|]; [apply IH..|done].
  - apply pruneLoop_swap.
  - by rewrite IH1.
Qed.

End FlatteningFurther.

(** ** The handler of service integrations *)

Section ServiceIntegrationFurther.
Context `{P : Platform}.
Import ServiceIntegrationHandler.




Lemma toOptionalStringPointer_not_empty s : toOptionalStringPointer s ≠ Some "".
Proof.
  unfold toOptionalStringPointer. destruct (String.eqb s "") eqn:E; [done|].
  apply String.eqb_neq in E. congruence.
Qed.

(** X16: for an integration that has no identifier yet, [createOrUpdate]
    never returns an object, whatever the provider answers: it returns the
    wrapped error of the creation, or it does not return at all (it panics,
    on the configuration or on the nil pointer left after a creation that
    succeeded). *)
Theorem creation_never_returns_an_object (h : t) (si : ServiceIntegration) r :
  ID (Status si) = "" →
  createOrUpdate h (ofServiceIntegration si) = Returns r →
  ∃ e, r = (None, Some (Errorf_w "cannot createOrUpdate service integration: " e)).
Proof.
  intros Hid. unfold createOrUpdate. simpl. rewrite Hid. simpl.
  destruct (getUserConfig si) as [userConfig|]; [|done].
  destruct (Create h _ _) as [integration [e|]]; simpl; [|done].
  intros [= <-]. by exists e.
Qed.


(** X18: [createOrUpdate] never names an endpoint or a service by the
    empty string in a creation request, an empty name is left out: the
    method cannot tell apart two providers that agree on every creation
    request without empty names (and on updates). *)
Theorem creation_request_omits_empty_names (h h' : t) (i : Object) :
  (∀ project req, omitsEmptyNames req → Create h project req = Create h' project req) →
  (∀ project id req, Update h project id req = Update h' project id req) →
  createOrUpdate h i = createOrUpdate h' i.
Proof.
  intros Hcreate Hupdate. unfold createOrUpdate. destruct i as [si|]; simpl; [|done].
  destruct (String.eqb _ _); destruct (getUserConfig si) as [userConfig|]; try done.
  - rewrite Hcreate; [done|].
    unfold omitsEmptyNames; simpl. split_and!; apply toOptionalStringPointer_not_empty.
  - by rewrite Hupdate.
Qed.





End ServiceIntegrationFurther.

(** ** The data of a service secret *)

Section SecretData.

Lemma length_zero_empty (v : string) : (String.length v =? 0)%nat = true ↔ v = "".
Proof. destruct v; simpl; [done|]. split; intros; discriminate. Qed.

Lemma dropEmptyLoop_lookup entries data k :
  dropEmptyLoop entries data !! k =
    if decide ((k, "") ∈ entries) then None else data !! k.
Proof.
  revert data. induction entries as [|[i v] rest IH]; intros data; cbn [dropEmptyLoop].
  { case_decide as H; [by apply elem_of_nil in H | done]. }
  destruct (String.length v =? 0)%nat eqn:Hv.
  - apply length_zero_empty in Hv as ->. rewrite IH.
    destruct (decide (k = i)) as [->|Hne].
    + rewrite lookup_delete_eq. repeat case_decide; try done; exfalso; set_solver.
    + rewrite lookup_delete_ne by done. repeat case_decide; try done; set_solver.
  - assert (v ≠ "") by (intros ->; done). rewrite IH.
    repeat case_decide; try done; set_solver.
Qed.

Lemma same_entries (m1 m2 : gmap string string) :
  (∀ k v, m1 !! k = Some v ↔ m2 !! k = Some v) → m1 = m2.
Proof.
  intros H. apply map_eq. intros k.
  destruct (m1 !! k) as [v|] eqn:E1.
  - symmetry. by apply H.
  - destruct (m2 !! k) as [v|] eqn:E2; [|done]. apply H in E2. congruence.
Qed.

(** X22: [ensureSecretDataIsNotEmpty] keeps exactly the fields of the string
    data whose value is not empty, each with its value, and nothing else of
    the secret changes; applied to its own result it changes nothing; and a
    nil secret stays nil. *)
Theorem secret_keeps_exactly_its_nonempty_fields (s : ServiceSecret) :
  ensureSecretDataIsNotEmpty None = None ∧
  ∃ s', ensureSecretDataIsNotEmpty (Some s) = Some s' ∧
    serviceSecretName s' = serviceSecretName s ∧
    (∀ k v, StringData s' !! k = Some v ↔ StringData s !! k = Some v ∧ v ≠ "") ∧
    ensureSecretDataIsNotEmpty (Some s') = Some s'.
Proof.
  split; [done|]. eexists. split; [reflexivity|]. simpl.
  assert (Hlookup : ∀ data : gmap string string, ∀ k v,
            dropEmptyLoop (map_to_list data) data !! k = Some v ↔
            data !! k = Some v ∧ v ≠ "").
  { intros data k v. rewrite dropEmptyLoop_lookup. case_decide as Hin.
    - apply elem_of_map_to_list in Hin. split; [done|]. intros [? ?]. congruence.
    - split; [|by intros [? _]]. intros Hk. split; [done|]. intros ->.
      apply Hin. by apply elem_of_map_to_list. }
  split_and!; [done|apply Hlookup|].
  unfold ensureSecretDataIsNotEmpty. simpl. do 2 f_equal.
  apply same_entries. intros k v. rewrite !Hlookup. naive_solver.
Qed.

End SecretData.

(** ** The finalizer of the instance *)

Section InstanceFinalizer.
Context `{P : Platform}.
Import instanceReconcilerHelper.


End InstanceFinalizer.

Section PassWitnesses.
#[local] Existing Instance demoPlatform.
Import instanceReconcilerHelper.


Lemma handler_methods_called_at_most_once_witness :
  let i := demoHelper (demoStore (inl demoObject) (inl demoSecret) None None None)
             demoSecretHandler in
  let st := demoState demoObject demoSecret in
  List.map kindOfCall (calls (reconcileInstance i st).2) =
    [KEvent; KUpdateSecret; KUpdate; KEvent; KEvent; KCheckPreconditions; KEvent; KEvent;
     KCreateOrUpdate; KEvent; KEvent; KGet; KCreateOrUpdateSecret; KStatusUpdate; KUpdate;
     KEvent] ∧
  ∃ new, calls (reconcileInstance i st).2 = calls st ++ new ∧
    ∀ k, k ∈ handlerKinds → countKind k new ≤ 1.
Proof.
  intros i st. split; [by vm_compute|].
  apply (handler_methods_called_at_most_once i st (reconcileInstance i st).1).
  apply surjective_pairing.
Defined.

Lemma pass_result_is_done_requeue_or_error_witness :
  let i := demoHelper (demoStore (inl demoObject) (inl demoSecret) None None None)
             (demoHandler (true, None) None (true, None) None false) in
  let st := demoState demoObject demoSecret in
  let r := (reconcileInstance i st).1 in
  r = (noResult, None) ∨
  r = ({| Requeue := true; RequeueAfter := requeueTimeout |}, None) ∨
  ∃ e, r = (noResult, Some e).
Proof.
  intros i st r.
  apply (pass_result_is_done_requeue_or_error i st r (reconcileInstance i st).2).
  apply surjective_pairing.
Defined.

Lemma pass_error_is_announced_witness :
  let failure := errorString "500: internal error" in
  let i := demoHelper (demoStore (inl demoObject) (inl demoSecret) None None None)
             (demoHandler (true, None) (Some failure) (true, None) None true) in
  let st := demoState demoObject demoSecret in
  ∃ pre c, calls (reconcileInstance i st).2 = calls st ++ pre ++ [c] ∧
    (isWarning c = true ∨ ∃ s e', c = K8sUpdateSecret s (Some e')).
Proof.
  intros failure i st.
  apply (pass_error_is_announced i st (reconcileInstance i st).1 (reconcileInstance i st).2
           (Errorf_w "unable to create or update instance at aiven: "
              (Errorf_w "unable to create or update aiven instance: " failure))).
  - apply surjective_pairing.
  - vm_compute. reflexivity.
Defined.


Lemma secret_is_written_iff_read_back_returned_it_witness :
  let i := demoHelper (demoStore (inl demoObject) (inl demoSecret) None None None)
             demoSecretHandler in
  let st := demoState demoObject demoSecret in
  (∃ owner e, K8sCreateOrUpdateSecret owner demoServiceSecret e
                ∈ calls (reconcileInstance i st).2) ∧
  ∃ new, calls (reconcileInstance i st).2 = calls st ++ new ∧
    ∀ owner want,
      (∃ e, K8sCreateOrUpdateSecret owner want e ∈ new) ↔
      (∃ o, HandlerGet o owner (Some want) None ∈ new).
Proof.
  intros i st. split.
  - do 2 eexists. apply (list_elem_of_lookup_2 _ 12). vm_compute. reflexivity.
  - apply (secret_is_written_iff_read_back_returned_it i st (reconcileInstance i st).1).
    apply surjective_pairing.
Defined.


Lemma provider_calls_follow_met_preconditions_witness :
  let i := demoHelper (demoStore (inl demoObject) (inl demoSecret) None None None)
             demoSecretHandler in
  let st := demoState demoObject demoSecret in
  ∃ new, calls (reconcileInstance i st).2 = calls st ++ new ∧
    ∀ pre c post, new = pre ++ c :: post →
      kindOfCall c ∈ [KCreateOrUpdate; KGet; KStatusUpdate; KCreateOrUpdateSecret] →
      ∃ o o', HandlerCheckPreconditions o o' true None ∈ pre.
Proof.
  intros i st.
  apply (provider_calls_follow_met_preconditions i st (reconcileInstance i st).1).
  apply surjective_pairing.
Defined.

End PassWitnesses.

Section OutcomeWitnesses.
#[local] Existing Instance demoPlatform.
Import instanceReconcilerHelper.


Lemma canBeDeleted_sees_through_wrapping_witness :
  canBeDeleted demoDeletedObject
    (Some (Errorf_w "aiven client delete service ingtegration error: "
             (errorString "403: Invalid token"))) = true.
Proof. apply canBeDeleted_sees_through_wrapping. reflexivity. Defined.

Lemma object_load_failure_ends_pass_silently_witness :
  let gone := errorString "404: not found" in
  let c := {| Controller.Client :=
                demoStore (inr gone) (inl demoSecret) None None None |} in
  let req := {| Controller.reqNamespacedName :=
                  {| nnNamespace := "default"; nnName := "db" |} |} in
  let h := demoHandler (true, None) None (true, None) None true in
  let st := @Controller.start demoPlatform tt demoObject in
  Controller.reconcileInstance c req h st = ((noResult, None), st).
Proof.
  intros gone c req h st.
  apply (object_load_failure_ends_pass_silently c req h st gone).
  reflexivity.
Defined.

End OutcomeWitnesses.

Section FlatteningWitnesses.
Import reflect.

Lemma flattened_entries_are_converted_fields_that_are_set_witness :
  let fields := [("project_vpc_id,omitempty", PtrV None);
                 ("pg_version,omitempty", StringV "14");
                 ("backup_hour,omitempty", PtrV (Some (Int64V 3)))] in
  ∃ m, MapV (Some {[ "pg_version" := StringV "14"; "backup_hour" := Int64V 3 ]}) = MapV (Some m) ∧
    ∀ k x, m !! k = Some x →
      (∃ tag field, (tag, field) ∈ fields ∧ fieldName tag = k ∧
         UserConfigurationToAPI field = Returns x) ∧
      x ∉ NilInterface :: blanks.
Proof.
  intros fields.
  apply (flattened_entries_are_converted_fields_that_are_set fields).
  vm_compute. reflexivity.
Defined.

Lemma flatten_panics_on_plain_bool_or_int64_witness :
  UserConfigurationToAPI
    (StructV [("name", StringV "logs");
              ("kafka", PtrV (Some (StructV [("enabled,omitempty", BoolV true)])))]) = Panics.
Proof.
  apply flatten_panics_on_plain_bool_or_int64.
  eapply plainBelow; [apply list_elem_of_further, list_elem_of_here|].
  apply plainBehindPointer.
  eapply plainField; [apply list_elem_of_here | by left].
Defined.


Lemma prune_order_is_irrelevant_witness :
  let result : gmap string value :=
    {[ "variant" := StringV ""; "pg_version" := StringV "14"; "ip_filter" := PtrV None ]} in
  pruneLoop (reverse (map_to_list result)) result = prune result.
Proof.
  intros result.
  apply (prune_order_is_irrelevant (reverse (map_to_list result)) (map_to_list result)).
  apply reverse_Permutation.
Defined.

End FlatteningWitnesses.

Section ServiceIntegrationWitnesses.
#[local] Existing Instance demoPlatform.
Import ServiceIntegrationHandler.

Lemma creation_never_returns_an_object_witness :
  ∃ e, (None : option ServiceIntegration,
        Some (Errorf_w "cannot createOrUpdate service integration: "
                (errorString "409: integration exists"))) =
       (None, Some (Errorf_w "cannot createOrUpdate service integration: " e)).
Proof.
  apply (creation_never_returns_an_object demoRefusingProvider demoServiceIntegration).
  - reflexivity.
  - vm_compute. reflexivity.
Defined.


Lemma creation_request_omits_empty_names_witness :
  let h' :=
    {| Create := fun project req =>
         if decide (reqSourceEndpointID req = Some "") then (None, None)
         else Create demoRefusingProvider project req;
       Update := Update demoRefusingProvider;
       Delete := Delete demoRefusingProvider |} in
  createOrUpdate demoRefusingProvider (ofServiceIntegration demoServiceIntegration) =
  createOrUpdate h' (ofServiceIntegration demoServiceIntegration).
Proof.
  intros h'. apply creation_request_omits_empty_names.
  - intros project req (_ & _ & Hsource & _). simpl. by case_decide.
  - reflexivity.
Defined.


End ServiceIntegrationWitnesses.

Section InstanceFinalizerWitnesses.
#[local] Existing Instance demoPlatform.
Import instanceReconcilerHelper.


End InstanceFinalizerWitnesses.
